(** * The mGBA emulation supervisor ([src/gba/supervisor/thread.c])

    A shallow embedding of the thread state machine and of the video/audio
    rendezvous of [thread.c], and the properties the specification states
    about them.

    The program is concurrent.  It is modelled from the point of view of one
    calling thread at a time: every function of [thread.c] is a program in a
    small state-and-error monad over a [World] made of the shared
    [GBAThread] context, the owner of each mutex, a log of the
    synchronisation events the caller performed and a clock.  The other
    threads act exactly where the caller gives them room: inside
    [ConditionWait] and [ConditionWaitTimed] (the mutex is released while
    sleeping), inside the unlock/relock of [_waitUntilNotState], and inside
    [ThreadJoin].  What they do there is a parameter ([others]) of the run, so
    a statement can quantify over every behaviour of the other threads or fix
    it to the worker loop [_GBAThreadRun]. *)

From Stdlib Require Import ZArith List Bool Lia.
From Stdlib Require String.
Import ListNotations.
Local Open Scope Z_scope.

(** ** C integers *)

Module CInt.

Definition INT_MIN : Z := -2147483648.
Definition INT_MAX : Z := 2147483647.

Definition in_range (z : Z) : Prop := INT_MIN <= z <= INT_MAX.

(** Two's-complement reduction to 32 bits: what [++] and [--] leave in an
    [int]. *)
Definition wrap (z : Z) : Z := (z + 2147483648) mod 4294967296 - 2147483648.

Definition incr (z : Z) : Z := wrap (z + 1).
Definition decr (z : Z) : Z := wrap (z - 1).

Arguments wrap : simpl nomatch.
Arguments incr : simpl nomatch.
Arguments decr : simpl nomatch.

End CInt.

(** ** Data model *)

(** Modelled from the spec: [enum ThreadState] is declared in [thread.h],
    which is not among the sources.  The specification lists the values and
    fixes the order the comparisons of [thread.c] rely on:
    [INITIALIZED < RUNNING < {RESETING, INTERRUPTING, INTERRUPTED, PAUSING,
    PAUSED} < EXITING < SHUTDOWN], and [CRASHED > EXITING].  [state_rank]
    numbers the values in the order the specification lists them. *)
Inductive ThreadState : Type :=
| THREAD_INITIALIZED
| THREAD_RUNNING
| THREAD_RESETING
| THREAD_INTERRUPTING
| THREAD_INTERRUPTED
| THREAD_PAUSING
| THREAD_PAUSED
| THREAD_EXITING
| THREAD_SHUTDOWN
| THREAD_CRASHED.

Definition state_rank (s : ThreadState) : Z :=
  match s with
  | THREAD_INITIALIZED => -1
  | THREAD_RUNNING => 0
  | THREAD_RESETING => 1
  | THREAD_INTERRUPTING => 2
  | THREAD_INTERRUPTED => 3
  | THREAD_PAUSING => 4
  | THREAD_PAUSED => 5
  | THREAD_EXITING => 6
  | THREAD_SHUTDOWN => 7
  | THREAD_CRASHED => 8
  end.

(** The C comparisons on [enum ThreadState] values. *)
Definition state_eqb (a b : ThreadState) : bool := state_rank a =? state_rank b.
Definition state_ltb (a b : ThreadState) : bool := state_rank a <? state_rank b.
Definition state_leb (a b : ThreadState) : bool := state_rank a <=? state_rank b.

(** [struct VFile*] and [struct VDir*] handles ([util/vfs.h]).  A handle
    carries its identity and what the external predicates answer on it:
    [GBAIsROM(vf)], [loadPatch(vf, &patch)], and, for a directory, what
    [openFile] returns for each entry [listNext] yields after [rewind]
    ([None]: the entry cannot be opened). *)
Record VFile : Type := mkVFile {
  vf_id : nat;
  GBAIsROM : bool;
  loadPatch : bool
}.

Record VDir : Type := mkVDir {
  vd_id : nat;
  vd_entries : list (option VFile)
}.

Inductive Handle : Type :=
| FileHandle (id : nat)
| DirHandle (id : nat).

Definition Handle_eqb (a b : Handle) : bool :=
  match a, b with
  | FileHandle x, FileHandle y => Nat.eqb x y
  | DirHandle x, DirHandle y => Nat.eqb x y
  | _, _ => false
  end.

Definition file_handle (vf : VFile) : Handle := FileHandle (vf_id vf).
Definition dir_handle (vd : VDir) : Handle := DirHandle (vd_id vd).

(** Pointer equality of two [struct VDir*]. *)
Definition VDir_ptr_eqb (a b : option VDir) : bool :=
  match a, b with
  | None, None => true
  | Some x, Some y => Nat.eqb (vd_id x) (vd_id y)
  | _, _ => false
  end.

(** The part of [struct ARMCore] the supervisor writes through
    [threadContext->gba->cpu]. *)
Record GBACore : Type := mkGBACore {
  halted : bool;
  nextEvent : Z
}.

(** [struct GBASync] without its mutexes and condition variables, which
    live in the [World]. *)
Record GBASync : Type := mkGBASync {
  videoFramePending : Z;
  videoFrameWait : bool;
  videoFrameSkip : Z;
  videoFrameOn : bool;
  audioWait : bool
}.

(** [struct GBAThread]: the state machine, the channel, the core pointer
    and the owned handles.  The fields no claim depends on (keys, rewind
    buffer, fps target, renderer, cheats device, debugger, callbacks) are
    not represented; [thread] records that [ThreadCreate] has run. *)
Record GBAThread : Type := mkGBAThread {
  state : ThreadState;
  savedState : ThreadState;
  interruptDepth : Z;
  sync : GBASync;
  gba : option GBACore;
  thread : bool;
  rom : option VFile;
  bios : option VFile;
  save : option VFile;
  patch : option VFile;
  cheatsFile : option VFile;
  gameDir : option VDir;
  stateDir : option VDir;
  fname : option String.string;
  movie : option String.string
}.

(** *** Field updates *)

Definition set_videoFramePending (v : Z) (s : GBASync) : GBASync :=
  mkGBASync v (videoFrameWait s) (videoFrameSkip s) (videoFrameOn s) (audioWait s).
Definition set_videoFrameWait (v : bool) (s : GBASync) : GBASync :=
  mkGBASync (videoFramePending s) v (videoFrameSkip s) (videoFrameOn s) (audioWait s).
Definition set_videoFrameSkip (v : Z) (s : GBASync) : GBASync :=
  mkGBASync (videoFramePending s) (videoFrameWait s) v (videoFrameOn s) (audioWait s).
Definition set_videoFrameOn (v : bool) (s : GBASync) : GBASync :=
  mkGBASync (videoFramePending s) (videoFrameWait s) (videoFrameSkip s) v (audioWait s).
Definition set_audioWait (v : bool) (s : GBASync) : GBASync :=
  mkGBASync (videoFramePending s) (videoFrameWait s) (videoFrameSkip s) (videoFrameOn s) v.

Definition set_state (v : ThreadState) (c : GBAThread) : GBAThread :=
  mkGBAThread v (savedState c) (interruptDepth c) (sync c) (gba c) (thread c)
    (rom c) (bios c) (save c) (patch c) (cheatsFile c) (gameDir c) (stateDir c)
    (fname c) (movie c).
Definition set_savedState (v : ThreadState) (c : GBAThread) : GBAThread :=
  mkGBAThread (state c) v (interruptDepth c) (sync c) (gba c) (thread c)
    (rom c) (bios c) (save c) (patch c) (cheatsFile c) (gameDir c) (stateDir c)
    (fname c) (movie c).
Definition set_interruptDepth (v : Z) (c : GBAThread) : GBAThread :=
  mkGBAThread (state c) (savedState c) v (sync c) (gba c) (thread c)
    (rom c) (bios c) (save c) (patch c) (cheatsFile c) (gameDir c) (stateDir c)
    (fname c) (movie c).
Definition set_sync (v : GBASync) (c : GBAThread) : GBAThread :=
  mkGBAThread (state c) (savedState c) (interruptDepth c) v (gba c) (thread c)
    (rom c) (bios c) (save c) (patch c) (cheatsFile c) (gameDir c) (stateDir c)
    (fname c) (movie c).
Definition set_gba (v : option GBACore) (c : GBAThread) : GBAThread :=
  mkGBAThread (state c) (savedState c) (interruptDepth c) (sync c) v (thread c)
    (rom c) (bios c) (save c) (patch c) (cheatsFile c) (gameDir c) (stateDir c)
    (fname c) (movie c).
Definition set_thread (v : bool) (c : GBAThread) : GBAThread :=
  mkGBAThread (state c) (savedState c) (interruptDepth c) (sync c) (gba c) v
    (rom c) (bios c) (save c) (patch c) (cheatsFile c) (gameDir c) (stateDir c)
    (fname c) (movie c).
Definition set_rom (v : option VFile) (c : GBAThread) : GBAThread :=
  mkGBAThread (state c) (savedState c) (interruptDepth c) (sync c) (gba c) (thread c)
    v (bios c) (save c) (patch c) (cheatsFile c) (gameDir c) (stateDir c)
    (fname c) (movie c).
Definition set_bios (v : option VFile) (c : GBAThread) : GBAThread :=
  mkGBAThread (state c) (savedState c) (interruptDepth c) (sync c) (gba c) (thread c)
    (rom c) v (save c) (patch c) (cheatsFile c) (gameDir c) (stateDir c)
    (fname c) (movie c).
Definition set_save (v : option VFile) (c : GBAThread) : GBAThread :=
  mkGBAThread (state c) (savedState c) (interruptDepth c) (sync c) (gba c) (thread c)
    (rom c) (bios c) v (patch c) (cheatsFile c) (gameDir c) (stateDir c)
    (fname c) (movie c).
Definition set_patch (v : option VFile) (c : GBAThread) : GBAThread :=
  mkGBAThread (state c) (savedState c) (interruptDepth c) (sync c) (gba c) (thread c)
    (rom c) (bios c) (save c) v (cheatsFile c) (gameDir c) (stateDir c)
    (fname c) (movie c).
Definition set_cheatsFile (v : option VFile) (c : GBAThread) : GBAThread :=
  mkGBAThread (state c) (savedState c) (interruptDepth c) (sync c) (gba c) (thread c)
    (rom c) (bios c) (save c) (patch c) v (gameDir c) (stateDir c)
    (fname c) (movie c).
Definition set_gameDir (v : option VDir) (c : GBAThread) : GBAThread :=
  mkGBAThread (state c) (savedState c) (interruptDepth c) (sync c) (gba c) (thread c)
    (rom c) (bios c) (save c) (patch c) (cheatsFile c) v (stateDir c)
    (fname c) (movie c).
Definition set_stateDir (v : option VDir) (c : GBAThread) : GBAThread :=
  mkGBAThread (state c) (savedState c) (interruptDepth c) (sync c) (gba c) (thread c)
    (rom c) (bios c) (save c) (patch c) (cheatsFile c) (gameDir c) v
    (fname c) (movie c).
Definition set_fname (v : option String.string) (c : GBAThread) : GBAThread :=
  mkGBAThread (state c) (savedState c) (interruptDepth c) (sync c) (gba c) (thread c)
    (rom c) (bios c) (save c) (patch c) (cheatsFile c) (gameDir c) (stateDir c)
    v (movie c).
Definition set_movie (v : option String.string) (c : GBAThread) : GBAThread :=
  mkGBAThread (state c) (savedState c) (interruptDepth c) (sync c) (gba c) (thread c)
    (rom c) (bios c) (save c) (patch c) (cheatsFile c) (gameDir c) (stateDir c)
    (fname c) v.

(** Update of one field of [threadContext->sync]. *)
Definition on_sync (f : GBASync -> GBASync) (c : GBAThread) : GBAThread :=
  set_sync (f (sync c)) c.

(** ** Threads, mutexes, condition variables *)

(** The threads of the specification: the host that drives the API, the
    emulation worker, the renderer that consumes frames and the audio
    callback that drains samples. *)
Inductive ThreadId : Type := Host | Worker | Renderer | AudioCallback.

Definition ThreadId_eqb (a b : ThreadId) : bool :=
  match a, b with
  | Host, Host | Worker, Worker | Renderer, Renderer
  | AudioCallback, AudioCallback => true
  | _, _ => false
  end.

Inductive Mutex : Type := stateMutex | videoFrameMutex | audioBufferMutex.

Inductive Condition : Type :=
| stateCond
| videoFrameAvailableCond
| videoFrameRequiredCond
| audioRequiredCond.

(** Who holds each mutex. *)
Record Locks : Type := mkLocks {
  stateOwner : option ThreadId;
  videoFrameOwner : option ThreadId;
  audioBufferOwner : option ThreadId
}.

Definition owner (m : Mutex) (l : Locks) : option ThreadId :=
  match m with
  | stateMutex => stateOwner l
  | videoFrameMutex => videoFrameOwner l
  | audioBufferMutex => audioBufferOwner l
  end.

Definition set_owner (m : Mutex) (o : option ThreadId) (l : Locks) : Locks :=
  match m with
  | stateMutex => mkLocks o (videoFrameOwner l) (audioBufferOwner l)
  | videoFrameMutex => mkLocks (stateOwner l) o (audioBufferOwner l)
  | audioBufferMutex => mkLocks (stateOwner l) (videoFrameOwner l) o
  end.

Definition holds (t : ThreadId) (m : Mutex) (l : Locks) : bool :=
  match owner m l with
  | Some t' => ThreadId_eqb t' t
  | None => false
  end.

Definition no_locks : Locks := mkLocks None None None.

(** What the calling thread does to the synchronisation objects, to
    [threadContext->state] and to the handles.  An access to
    [threadContext->state] records whether the caller held [stateMutex] at
    that moment. *)
Inductive Event : Type :=
| EvMutexInit (m : Mutex)
| EvMutexDeinit (m : Mutex)
| EvConditionInit (c : Condition)
| EvConditionDeinit (c : Condition)
| EvLock (m : Mutex)
| EvUnlock (m : Mutex)
| EvWake (c : Condition)
| EvWait (c : Condition) (m : Mutex)
| EvWaitTimed (c : Condition) (m : Mutex) (timeoutMs : Z)
| EvThreadCreate
| EvThreadJoin
| EvStateRead (guarded : bool)
| EvStateWrite (guarded : bool)
| EvClose (h : Handle).

(** The shared memory, the lock table, the caller's log (newest event
    first) and the number of times the caller has given way to the other
    threads. *)
Record World : Type := mkWorld {
  ctx : GBAThread;
  locks : Locks;
  trace : list Event;
  clock : nat
}.

Definition set_ctx (c : GBAThread) (w : World) : World :=
  mkWorld c (locks w) (trace w) (clock w).
Definition set_locks (l : Locks) (w : World) : World :=
  mkWorld (ctx w) l (trace w) (clock w).
Definition log (e : Event) (w : World) : World :=
  mkWorld (ctx w) (locks w) (e :: trace w) (clock w).

(** The events in the order they happened. *)
Definition history (w : World) : list Event := rev (trace w).

(** The external file layer ([util/vfs.h]): what each open call answers.
    A path is [None] for a null [char*]. *)
Record FileSystem : Type := mkFileSystem {
  VFileOpen : option String.string -> option VFile;
  VDirOpen : option String.string -> option VDir;
  ENABLE_LIBZIP : bool;
  VDirOpenZip : option String.string -> option VDir;
  ENABLE_LZMA : bool;
  VDirOpen7z : option String.string -> option VDir;
  VDirOptionalOpenFile : option VDir -> option String.string -> option VFile
}.

(** The setting of one call: who calls, how many iterations a waiting loop
    may take before the run is reported as still waiting, what the other
    threads do to the context the [n]-th time the caller gives way, whether
    the timed wait at that moment runs into its deadline, and the file
    layer. *)
Record Setting : Type := mkSetting {
  caller : ThreadId;
  fuel : nat;
  others : nat -> GBAThread -> GBAThread;
  timedout : nat -> bool;
  fs : FileSystem
}.

Definition as_thread (t : ThreadId) (cfg : Setting) : Setting :=
  mkSetting t (fuel cfg) (others cfg) (timedout cfg) (fs cfg).

(** ** The monad *)

(** Why a run did not return. *)
Inductive Fault : Type :=
| Relock (m : Mutex)        (* locks a mutex it already holds: it never returns *)
| Contended (m : Mutex)     (* the mutex is held by another thread: blocked on it *)
| NotOwner (m : Mutex)      (* unlocks or waits with a mutex it does not hold *)
| NullDeref                 (* dereferences a null pointer *)
| StillWaiting.             (* the loop bound is reached inside a waiting loop *)

Inductive Res (A : Type) : Type :=
| Ok (a : A) (w : World)
| Err (f : Fault) (w : World).
Arguments Ok {A} a w.
Arguments Err {A} f w.

Definition M (A : Type) : Type := Setting -> World -> Res A.

Definition ret {A} (a : A) : M A := fun _ w => Ok a w.

Definition bind {A B} (m : M A) (k : A -> M B) : M B :=
  fun cfg w =>
    match m cfg w with
    | Ok a w' => k a cfg w'
    | Err f w' => Err f w'
    end.

Definition fail {A} (f : Fault) : M A := fun _ w => Err f w.

Declare Scope m_scope.
Delimit Scope m_scope with m.
Notation "x <- m ;; k" := (bind m (fun x => k))
  (at level 61, m at next level, right associativity) : m_scope.
Notation "m ;; k" := (bind m (fun _ => k))
  (at level 61, right associativity) : m_scope.
Local Open Scope m_scope.

(** The world a run ends in, returned or not. *)
Definition final {A} (r : Res A) : World :=
  match r with
  | Ok _ w => w
  | Err _ w => w
  end.

Definition returned {A} (r : Res A) : bool :=
  match r with
  | Ok _ _ => true
  | Err _ _ => false
  end.

(** The events a run added to the log, newest first: [trace w'] is
    [new_events w w' ++ trace w]. *)
Definition new_events (w w' : World) : list Event :=
  firstn (length (trace w') - length (trace w)) (trace w').

(** *** Memory *)

Definition get {A} (f : GBAThread -> A) : M A := fun _ w => Ok (f (ctx w)) w.

Definition modify (f : GBAThread -> GBAThread) : M unit :=
  fun _ w => Ok tt (set_ctx (f (ctx w)) w).

Definition emit (e : Event) : M unit := fun _ w => Ok tt (log e w).

(** [threadContext->state] as an rvalue and as an lvalue. *)
Definition read_state : M ThreadState :=
  fun cfg w =>
    Ok (state (ctx w)) (log (EvStateRead (holds (caller cfg) stateMutex (locks w))) w).

Definition write_state (s : ThreadState) : M unit :=
  fun cfg w =>
    Ok tt (set_ctx (set_state s (ctx w))
             (log (EvStateWrite (holds (caller cfg) stateMutex (locks w))) w)).

(** The other threads run: the context becomes what they leave, and the
    clock advances. *)
Definition give_way : M unit :=
  fun cfg w =>
    Ok tt (mkWorld (others cfg (clock w) (ctx w)) (locks w) (trace w) (S (clock w))).

(** *** [util/threading.h] *)

(** Modelled from the spec: [util/threading.h] is not among the sources.
    The mutexes are plain (not recursive) pthread mutexes; a condition wait
    needs its mutex held, releases it while sleeping and holds it again on
    wake-up; [ConditionWaitTimed] returns nonzero when its deadline passes. *)
Definition MutexInit (m : Mutex) : M unit :=
  fun _ w => Ok tt (set_locks (set_owner m None (locks w)) (log (EvMutexInit m) w)).

Definition MutexDeinit (m : Mutex) : M unit := emit (EvMutexDeinit m).

Definition ConditionInit (c : Condition) : M unit := emit (EvConditionInit c).

Definition ConditionDeinit (c : Condition) : M unit := emit (EvConditionDeinit c).

Definition MutexLock (m : Mutex) : M unit :=
  fun cfg w =>
    match owner m (locks w) with
    | None => Ok tt (set_locks (set_owner m (Some (caller cfg)) (locks w)) (log (EvLock m) w))
    | Some t => if ThreadId_eqb t (caller cfg) then Err (Relock m) w else Err (Contended m) w
    end.

Definition MutexUnlock (m : Mutex) : M unit :=
  fun cfg w =>
    if holds (caller cfg) m (locks w)
    then Ok tt (set_locks (set_owner m None (locks w)) (log (EvUnlock m) w))
    else Err (NotOwner m) w.

Definition ConditionWake (c : Condition) : M unit := emit (EvWake c).

Definition ConditionWait (c : Condition) (m : Mutex) : M unit :=
  fun cfg w =>
    if holds (caller cfg) m (locks w)
    then give_way cfg (log (EvWait c m) w)
    else Err (NotOwner m) w.

Definition ConditionWaitTimed (c : Condition) (m : Mutex) (timeoutMs : Z) : M bool :=
  fun cfg w =>
    if holds (caller cfg) m (locks w)
    then (give_way ;; ret (timedout cfg (clock w))) cfg (log (EvWaitTimed c m timeoutMs) w)
    else Err (NotOwner m) w.

Definition ThreadCreate : M unit :=
  emit EvThreadCreate ;; modify (set_thread true).

Definition ThreadJoin : M unit := emit EvThreadJoin ;; give_way.

(** *** Loops *)

(** [while (test) body], reported as still waiting when the body would
    run more than [n] times. *)
Fixpoint while_upto (n : nat) (test : M bool) (body : M unit) : M unit :=
  b <- test ;;
  if b
  then match n with
       | O => fail StillWaiting
       | S n' => body ;; while_upto n' test body
       end
  else ret tt.

Definition while_ (test : M bool) (body : M unit) : M unit :=
  fun cfg w => while_upto (fuel cfg) test body cfg w.

Definition do_while (body : M unit) (test : M bool) : M unit :=
  body ;; while_ test body.

Definition when (b : bool) (m : M unit) : M unit := if b then m else ret tt.

(** C's short-circuit [||] and [&&] on conditions that read memory. *)
Definition orelse (a b : M bool) : M bool := x <- a ;; if x then ret true else b.
Definition andalso (a b : M bool) : M bool := x <- a ;; if x then b else ret false.

Definition ask : M Setting := fun cfg w => Ok cfg w.

(** A [struct GBASync*] argument: null, or the address of
    [threadContext->sync], the one channel of the world. *)
Inductive SyncPtr : Type := NULL | ThreadSync.

(** ** [thread.c]: the state machine *)

Definition state_is (s : ThreadState) : M bool :=
  x <- read_state ;; ret (state_eqb x s).

Definition _changeState (newState : ThreadState) (broadcast : bool) : M unit :=
  MutexLock stateMutex ;;
  write_state newState ;;
  when broadcast (ConditionWake stateCond) ;;
  MutexUnlock stateMutex.

Definition _waitOnInterrupt : M unit :=
  while_ (state_is THREAD_INTERRUPTED) (ConditionWait stateCond stateMutex).

(** The caller holds [stateMutex].  Each round releases it, nudges both
    channels, and takes it again; the other threads run in between. *)
Definition _waitUntilNotState (oldState : ThreadState) : M unit :=
  MutexLock videoFrameMutex ;;
  videoFrameWait0 <- get (fun c => videoFrameWait (sync c)) ;;
  modify (on_sync (set_videoFrameWait false)) ;;
  MutexUnlock videoFrameMutex ;;
  while_ (state_is oldState)
    (MutexUnlock stateMutex ;;
     MutexLock videoFrameMutex ;;
     ConditionWake videoFrameRequiredCond ;;
     MutexUnlock videoFrameMutex ;;
     MutexLock audioBufferMutex ;;
     ConditionWake audioRequiredCond ;;
     MutexUnlock audioBufferMutex ;;
     give_way ;;
     MutexLock stateMutex ;;
     ConditionWake stateCond) ;;
  MutexLock videoFrameMutex ;;
  modify (on_sync (set_videoFrameWait videoFrameWait0)) ;;
  MutexUnlock videoFrameMutex.

Definition _pauseThread (onThread : bool) : M unit :=
  write_state THREAD_PAUSING ;;
  when (negb onThread) (_waitUntilNotState THREAD_PAUSING).

Definition _changeVideoSync (frameOn : bool) : M unit :=
  MutexLock videoFrameMutex ;;
  on <- get (fun c => videoFrameOn (sync c)) ;;
  when (negb (Bool.eqb frameOn on))
    (modify (on_sync (set_videoFrameOn frameOn)) ;;
     ConditionWake videoFrameAvailableCond) ;;
  MutexUnlock videoFrameMutex.

Definition GBAThreadHasStarted : M bool :=
  MutexLock stateMutex ;;
  s <- read_state ;;
  MutexUnlock stateMutex ;;
  ret (state_ltb THREAD_INITIALIZED s).

Definition GBAThreadHasExited : M bool :=
  MutexLock stateMutex ;;
  s <- read_state ;;
  MutexUnlock stateMutex ;;
  ret (state_ltb THREAD_EXITING s).

Definition GBAThreadHasCrashed : M bool :=
  MutexLock stateMutex ;;
  s <- read_state ;;
  MutexUnlock stateMutex ;;
  ret (state_eqb s THREAD_CRASHED).

Definition GBAThreadIsActive : M bool :=
  andalso (s <- read_state ;; ret (state_leb THREAD_RUNNING s))
          (s <- read_state ;; ret (state_ltb s THREAD_EXITING)).

(** [threadContext->gba->cpu->field = v]. *)
Definition core_store (f : GBACore -> GBACore) : M unit :=
  g <- get gba ;;
  match g with
  | Some core => modify (set_gba (Some (f core)))
  | None => fail NullDeref
  end.

Definition GBAThreadEnd : M unit :=
  MutexLock stateMutex ;;
  _waitOnInterrupt ;;
  write_state THREAD_EXITING ;;
  g <- get gba ;;
  when (match g with Some _ => true | None => false end)
    (core_store (fun core => mkGBACore false (nextEvent core))) ;;
  ConditionWake stateCond ;;
  MutexUnlock stateMutex ;;
  MutexLock audioBufferMutex ;;
  modify (on_sync (set_audioWait false)) ;;
  ConditionWake audioRequiredCond ;;
  MutexUnlock audioBufferMutex ;;
  MutexLock videoFrameMutex ;;
  modify (on_sync (set_videoFrameWait false)) ;;
  modify (on_sync (set_videoFrameOn false)) ;;
  ConditionWake videoFrameRequiredCond ;;
  ConditionWake videoFrameAvailableCond ;;
  MutexUnlock videoFrameMutex.

Definition GBAThreadReset : M unit :=
  MutexLock stateMutex ;;
  _waitOnInterrupt ;;
  write_state THREAD_RESETING ;;
  ConditionWake stateCond ;;
  MutexUnlock stateMutex.

Definition GBAThreadInterrupt : M unit :=
  MutexLock stateMutex ;;
  modify (fun c => set_interruptDepth (CInt.incr (interruptDepth c)) c) ;;
  skip <- orelse (d <- get interruptDepth ;; ret (1 <? d))
                 (a <- GBAThreadIsActive ;; ret (negb a)) ;;
  if skip then MutexUnlock stateMutex
  else
    s <- read_state ;;
    modify (set_savedState s) ;;
    _waitOnInterrupt ;;
    write_state THREAD_INTERRUPTING ;;
    core_store (fun core => mkGBACore (halted core) 0) ;;
    ConditionWake stateCond ;;
    _waitUntilNotState THREAD_INTERRUPTING ;;
    MutexUnlock stateMutex.

Definition GBAThreadContinue : M unit :=
  MutexLock stateMutex ;;
  modify (fun c => set_interruptDepth (CInt.decr (interruptDepth c)) c) ;;
  restore <- andalso (d <- get interruptDepth ;; ret (d <? 1)) GBAThreadIsActive ;;
  when restore
    (s <- get savedState ;;
     write_state s ;;
     ConditionWake stateCond) ;;
  MutexUnlock stateMutex.

Definition GBAThreadPause : M unit :=
  MutexLock stateMutex ;;
  _waitOnInterrupt ;;
  running <- state_is THREAD_RUNNING ;;
  when running (_pauseThread false) ;;
  MutexUnlock stateMutex ;;
  _changeVideoSync (negb running).

Definition GBAThreadUnpause : M unit :=
  MutexLock stateMutex ;;
  _waitOnInterrupt ;;
  paused <- orelse (state_is THREAD_PAUSED) (state_is THREAD_PAUSING) ;;
  when paused
    (write_state THREAD_RUNNING ;;
     ConditionWake stateCond) ;;
  MutexUnlock stateMutex ;;
  _changeVideoSync true.

Definition GBAThreadIsPaused : M bool :=
  MutexLock stateMutex ;;
  _waitOnInterrupt ;;
  isPaused <- state_is THREAD_PAUSED ;;
  MutexUnlock stateMutex ;;
  ret isPaused.

Definition GBAThreadTogglePause : M unit :=
  MutexLock stateMutex ;;
  _waitOnInterrupt ;;
  paused <- orelse (state_is THREAD_PAUSED) (state_is THREAD_PAUSING) ;;
  frameOn <-
    (if paused
     then write_state THREAD_RUNNING ;; ConditionWake stateCond ;; ret true
     else
       running <- state_is THREAD_RUNNING ;;
       if running then _pauseThread false ;; ret false else ret true) ;;
  MutexUnlock stateMutex ;;
  _changeVideoSync frameOn.

Definition GBAThreadPauseFromThread : M unit :=
  MutexLock stateMutex ;;
  _waitOnInterrupt ;;
  running <- state_is THREAD_RUNNING ;;
  when running (_pauseThread true) ;;
  MutexUnlock stateMutex ;;
  _changeVideoSync (negb running).

(** ** [thread.c]: start-up and tear-down *)

Record GBAArguments : Type := mkGBAArguments {
  arg_fname : option String.string;
  arg_dirmode : bool;
  arg_patch : option String.string;
  arg_cheatsFile : option String.string;
  arg_movie : option String.string
}.

Definition is_null {A} (p : option A) : bool :=
  match p with
  | Some _ => false
  | None => true
  end.

Definition GBAMapArgumentsToContext (args : GBAArguments) : M unit :=
  cfg <- ask ;;
  (if arg_dirmode args
   then
     modify (set_gameDir (VDirOpen (fs cfg) (arg_fname args))) ;;
     modify (fun c => set_stateDir (gameDir c) c)
   else
     modify (set_rom (VFileOpen (fs cfg) (arg_fname args))) ;;
     modify (set_gameDir None) ;;
     when (ENABLE_LIBZIP (fs cfg))
       (d <- get gameDir ;;
        when (is_null d) (modify (set_gameDir (VDirOpenZip (fs cfg) (arg_fname args))))) ;;
     when (ENABLE_LZMA (fs cfg))
       (d <- get gameDir ;;
        when (is_null d) (modify (set_gameDir (VDirOpen7z (fs cfg) (arg_fname args)))))) ;;
  modify (set_fname (arg_fname args)) ;;
  modify (set_patch (VFileOpen (fs cfg) (arg_patch args))) ;;
  modify (set_cheatsFile (VFileOpen (fs cfg) (arg_cheatsFile args))) ;;
  modify (set_movie (arg_movie args)).

(** [vf->close(vf)] and [dir->close(dir)]. *)
Definition close_file (vf : VFile) : M unit := emit (EvClose (file_handle vf)).
Definition close_dir (vd : VDir) : M unit := emit (EvClose (dir_handle vd)).

(** The body of the directory loop of [GBAThreadStart] for one entry. *)
Definition scan_entry (e : option VFile) : M unit :=
  match e with
  | None => ret tt
  | Some vf =>
      r <- get rom ;;
      if is_null r && GBAIsROM vf then modify (set_rom (Some vf))
      else
        p <- get patch ;;
        if is_null p && loadPatch vf then modify (set_patch (Some vf))
        else close_file vf
  end.

Fixpoint scan_dir (entries : list (option VFile)) : M unit :=
  match entries with
  | [] => ret tt
  | e :: rest => scan_entry e ;; scan_dir rest
  end.

Definition GBAThreadStart : M bool :=
  write_state THREAD_INITIALIZED ;;
  modify (on_sync (set_videoFrameOn true)) ;;
  modify (on_sync (set_videoFrameSkip 0)) ;;
  r <- get rom ;;
  match r with
  | Some vf => when (negb (GBAIsROM vf)) (close_file vf ;; modify (set_rom None))
  | None => ret tt
  end ;;
  d <- get gameDir ;;
  match d with
  | Some dir => scan_dir (vd_entries dir)
  | None => ret tt
  end ;;
  r <- get rom ;;
  if is_null r
  then write_state THREAD_SHUTDOWN ;; ret false
  else
    cfg <- ask ;;
    modify (fun c => set_save (VDirOptionalOpenFile (fs cfg) (stateDir c) (fname c)) c) ;;
    MutexInit stateMutex ;;
    ConditionInit stateCond ;;
    MutexInit videoFrameMutex ;;
    ConditionInit videoFrameAvailableCond ;;
    ConditionInit videoFrameRequiredCond ;;
    MutexInit audioBufferMutex ;;
    ConditionInit audioRequiredCond ;;
    modify (set_interruptDepth 0) ;;
    MutexLock stateMutex ;;
    ThreadCreate ;;
    while_ (s <- read_state ;; ret (state_ltb s THREAD_RUNNING))
      (ConditionWait stateCond stateMutex) ;;
    MutexUnlock stateMutex ;;
    ret true.

(** [if (p) { p->close(p); p = 0; }] for a file field. *)
Definition release_file (field : GBAThread -> option VFile)
    (clear : GBAThread -> GBAThread) : M unit :=
  p <- get field ;;
  match p with
  | Some vf => close_file vf ;; modify clear
  | None => ret tt
  end.

Definition GBAThreadJoin : M unit :=
  ThreadJoin ;;
  MutexDeinit stateMutex ;;
  ConditionDeinit stateCond ;;
  MutexDeinit videoFrameMutex ;;
  ConditionWake videoFrameAvailableCond ;;
  ConditionDeinit videoFrameAvailableCond ;;
  ConditionWake videoFrameRequiredCond ;;
  ConditionDeinit videoFrameRequiredCond ;;
  ConditionWake audioRequiredCond ;;
  ConditionDeinit audioRequiredCond ;;
  MutexDeinit audioBufferMutex ;;
  release_file rom (set_rom None) ;;
  release_file save (set_save None) ;;
  release_file bios (set_bios None) ;;
  release_file patch (set_patch None) ;;
  g <- get gameDir ;;
  match g with
  | Some dir =>
      s <- get stateDir ;;
      when (VDir_ptr_eqb s g) (modify (set_stateDir None)) ;;
      close_dir dir ;;
      modify (set_gameDir None)
  | None => ret tt
  end ;;
  s <- get stateDir ;;
  match s with
  | Some dir => close_dir dir ;; modify (set_stateDir None)
  | None => ret tt
  end.

(** ** [thread.c]: the channel *)

Definition GBASyncPostFrame (psync : SyncPtr) : M unit :=
  match psync with
  | NULL => ret tt
  | ThreadSync =>
      MutexLock videoFrameMutex ;;
      modify (on_sync (fun s => set_videoFramePending (CInt.incr (videoFramePending s)) s)) ;;
      modify (on_sync (fun s => set_videoFrameSkip (CInt.decr (videoFrameSkip s)) s)) ;;
      skip <- get (fun c => videoFrameSkip (sync c)) ;;
      when (skip <? 0)
        (do_while
           (ConditionWake videoFrameAvailableCond ;;
            wait <- get (fun c => videoFrameWait (sync c)) ;;
            when wait (ConditionWait videoFrameRequiredCond videoFrameMutex))
           (get (fun c => videoFrameWait (sync c)
                          && negb (videoFramePending (sync c) =? 0)))) ;;
      MutexUnlock videoFrameMutex
  end.

Definition GBASyncWaitFrameStart (psync : SyncPtr) (frameskip : Z) : M bool :=
  match psync with
  | NULL => ret true
  | ThreadSync =>
      MutexLock videoFrameMutex ;;
      ConditionWake videoFrameRequiredCond ;;
      dry <- get (fun c => negb (videoFrameOn (sync c))
                           && (videoFramePending (sync c) =? 0)) ;;
      if dry then ret false
      else
        on <- get (fun c => videoFrameOn (sync c)) ;;
        late <- (if on
                 then ConditionWaitTimed videoFrameAvailableCond videoFrameMutex 50
                 else ret false) ;;
        if late then ret false
        else
          modify (on_sync (set_videoFramePending 0)) ;;
          modify (on_sync (set_videoFrameSkip frameskip)) ;;
          ret true
  end.

Definition GBASyncWaitFrameEnd (psync : SyncPtr) : M unit :=
  match psync with
  | NULL => ret tt
  | ThreadSync => MutexUnlock videoFrameMutex
  end.

Definition GBASyncDrawingFrame (psync : SyncPtr) : M bool :=
  match psync with
  | NULL => ret true
  | ThreadSync => get (fun c => videoFrameSkip (sync c) <=? 0)
  end.

Definition GBASyncSuspendDrawing (psync : SyncPtr) : M unit :=
  match psync with
  | NULL => ret tt
  | ThreadSync => _changeVideoSync false
  end.

Definition GBASyncResumeDrawing (psync : SyncPtr) : M unit :=
  match psync with
  | NULL => ret tt
  | ThreadSync => _changeVideoSync true
  end.

Definition GBASyncProduceAudio (psync : SyncPtr) (wait : bool) : M unit :=
  match psync with
  | NULL => ret tt
  | ThreadSync =>
      aw <- get (fun c => audioWait (sync c)) ;;
      when (aw && wait) (ConditionWait audioRequiredCond audioBufferMutex) ;;
      MutexUnlock audioBufferMutex
  end.

Definition GBASyncLockAudio (psync : SyncPtr) : M unit :=
  match psync with
  | NULL => ret tt
  | ThreadSync => MutexLock audioBufferMutex
  end.

Definition GBASyncUnlockAudio (psync : SyncPtr) : M unit :=
  match psync with
  | NULL => ret tt
  | ThreadSync => MutexUnlock audioBufferMutex
  end.

Definition GBASyncConsumeAudio (psync : SyncPtr) : M unit :=
  match psync with
  | NULL => ret tt
  | ThreadSync => ConditionWake audioRequiredCond ;; MutexUnlock audioBufferMutex
  end.

(** ** The worker, seen from the other threads *)

(** One pass of the worker's poll under [stateMutex]
    ([_GBAThreadRun], the three tests inside the inner [while]). *)
Definition worker_poll (c : GBAThread) : GBAThread :=
  let c1 := if state_eqb (state c) THREAD_PAUSING then set_state THREAD_PAUSED c else c in
  let c2 := if state_eqb (state c1) THREAD_INTERRUPTING
            then set_state THREAD_INTERRUPTED c1 else c1 in
  if state_eqb (state c2) THREAD_RESETING then set_state THREAD_RUNNING c2 else c2.

(** What [_GBAThreadRun] does to the context the next time it gets to run:
    nothing before [ThreadCreate]; on entry it installs the core and
    publishes RUNNING; below EXITING it polls; from EXITING on it forces
    SHUTDOWN, drops the core and switches the video output off. *)
Definition _GBAThreadRun (c : GBAThread) : GBAThread :=
  if negb (thread c) then c
  else if state_eqb (state c) THREAD_INITIALIZED
  then set_state THREAD_RUNNING (set_gba (Some (mkGBACore false 0)) c)
  else if state_ltb (state c) THREAD_EXITING
  then worker_poll c
  else
    on_sync (set_videoFrameOn false)
      (set_gba None
         (if state_ltb (state c) THREAD_SHUTDOWN then set_state THREAD_SHUTDOWN c else c)).

(** A file layer with no file. *)
Definition empty_fs : FileSystem :=
  mkFileSystem (fun _ => None) (fun _ => None) false (fun _ => None)
    false (fun _ => None) (fun _ _ => None).

(** The host calling, the worker as the only other thread, no timed wait
    running late. *)
Definition with_worker (n : nat) : Setting :=
  mkSetting Host n (fun _ => _GBAThreadRun) (fun _ => false) empty_fs.

(** Nobody else runs. *)
Definition alone (t : ThreadId) (n : nat) : Setting :=
  mkSetting t n (fun _ c => c) (fun _ => false) empty_fs.

(** ** Vocabulary of the statements *)

(** Every read of [threadContext->state] in a log was made with
    [stateMutex] held. *)
Definition reads_guarded (evs : list Event) : bool :=
  forallb (fun e => match e with EvStateRead g => g | _ => true end) evs.

(** Every write of [threadContext->state] in a log was made with
    [stateMutex] held. *)
Definition writes_guarded (evs : list Event) : bool :=
  forallb (fun e => match e with EvStateWrite g => g | _ => true end) evs.

(** The caller slept on a condition variable. *)
Definition is_wait (e : Event) : bool :=
  match e with
  | EvWait _ _ | EvWaitTimed _ _ _ => true
  | _ => false
  end.

Definition is_wake (c : Condition) (e : Event) : bool :=
  match e, c with
  | EvWake stateCond, stateCond
  | EvWake videoFrameAvailableCond, videoFrameAvailableCond
  | EvWake videoFrameRequiredCond, videoFrameRequiredCond
  | EvWake audioRequiredCond, audioRequiredCond => true
  | _, _ => false
  end.

(** The caller touched a mutex or a thread. *)
Definition is_setup (e : Event) : bool :=
  match e with
  | EvMutexInit _ | EvConditionInit _ | EvThreadCreate => true
  | _ => false
  end.

(** How many times a handle was closed in a log. *)
Definition closes (h : Handle) (evs : list Event) : nat :=
  List.length (filter (fun e => match e with EvClose h' => Handle_eqb h h' | _ => false end) evs).

(** The fault of a thread that asks for a mutex [t] holds. *)
Definition lock_fault (t asking : ThreadId) (m : Mutex) : Fault :=
  if ThreadId_eqb t asking then Relock m else Contended m.

(** A relation [R] holds between the world before any run of [m] and the
    world the run ends in, returned or not. *)
Definition steps (R : World -> World -> Prop) (cfg : Setting) {A} (m : M A) : Prop :=
  forall w, R w (final (m cfg w)).

(** The log only grows. *)
Definition grows (w w' : World) : Prop := exists evs, trace w' = evs ++ trace w.

(** The loop of [GBASyncPostFrame]: its body and its test. *)
Definition PostFrame_body : M unit :=
  ConditionWake videoFrameAvailableCond ;;
  wait <- get (fun c => videoFrameWait (sync c)) ;;
  when wait (ConditionWait videoFrameRequiredCond videoFrameMutex).

Definition PostFrame_test : M bool :=
  get (fun c => videoFrameWait (sync c) && negb (videoFramePending (sync c) =? 0)).

(** The context once the frame is counted. *)
Definition posted (c : GBAThread) : GBAThread :=
  on_sync (fun s => set_videoFrameSkip (CInt.decr (videoFrameSkip s)) s)
    (on_sync (fun s => set_videoFramePending (CInt.incr (videoFramePending s)) s) c).

(** The producer side of [n] frames in a row: before each frame the video
    code asks [GBASyncDrawingFrame], at its end it calls
    [GBASyncPostFrame].  The result lists the answers of
    [GBASyncDrawingFrame], first frame first. *)
Fixpoint produce_frames (n : nat) : M (list bool) :=
  match n with
  | O => ret []
  | S n' =>
      drawing <- GBASyncDrawingFrame ThreadSync ;;
      GBASyncPostFrame ThreadSync ;;
      rest <- produce_frames n' ;;
      ret (drawing :: rest)
  end.

(** A log entry of a frame that was neither signalled nor slept on. *)
Definition is_lock_only (e : Event) : bool :=
  match e with
  | EvLock videoFrameMutex | EvUnlock videoFrameMutex => true
  | _ => false
  end.

(** A started context without files, in state [s] and with channel [sy],
    and the world in which nothing has happened yet. *)
Definition started (s : ThreadState) (sy : GBASync) : GBAThread :=
  mkGBAThread s THREAD_INITIALIZED 0 sy (Some (mkGBACore false 0)) true
    None None None None None None None None None.

Definition fresh_world (c : GBAThread) : World := mkWorld c no_locks [] 0%nat.

(** The caller did nothing but read [threadContext->state] and sleep on
    [stateCond]: the lock table is as before, and every read carries the
    same mark, that of a caller [t] who does or does not hold
    [stateMutex]. *)
Definition waited_on_state (t : ThreadId) (w w' : World) : Prop :=
  locks w' = locks w /\
  exists evs,
    trace w' = evs ++ trace w /\
    Forall (fun e => e = EvStateRead (holds t stateMutex (locks w)) \/
                     e = EvWait stateCond stateMutex) evs.

(** The range test of [GBAThreadIsActive] on a state. *)
Definition is_active (s : ThreadState) : bool :=
  state_leb THREAD_RUNNING s && state_ltb s THREAD_EXITING.

(** The calls of the interrupt protocol, and sequences of them. *)
Inductive Call : Type := Interrupt | Continue.

Definition call (c : Call) : M unit :=
  match c with
  | Interrupt => GBAThreadInterrupt
  | Continue => GBAThreadContinue
  end.

Fixpoint run_calls (l : list Call) : M unit :=
  match l with
  | [] => ret tt
  | c :: rest => call c ;; run_calls rest
  end.

(** A sequence is balanced from nesting depth [d] when every [Continue]
    answers an earlier [Interrupt] still open (or one of the [d] open at
    the start) and none is left open at the end. *)
Fixpoint balanced_from (d : nat) (l : list Call) : bool :=
  match l with
  | [] => Nat.eqb d 0
  | Interrupt :: rest => balanced_from (S d) rest
  | Continue :: rest =>
      match d with
      | O => false
      | S d' => balanced_from d' rest
      end
  end.

Definition balanced (l : list Call) : bool := balanced_from 0 l.

(** An active context has a worker and a core. *)
Definition well_started (c : GBAThread) : Prop :=
  is_active (state c) = true -> thread c = true /\ gba c <> None.

(** The other threads leave the interrupt bookkeeping alone. *)
Definition keeps_interrupt_fields (cfg : Setting) : Prop :=
  forall n c,
    savedState (others cfg n c) = savedState c /\
    interruptDepth (others cfg n c) = interruptDepth c.

(** The context after the outermost [GBAThreadInterrupt] has been served
    by the worker. *)
Definition interrupted (c : GBAThread) : GBAThread :=
  set_state THREAD_INTERRUPTED
    (set_gba (match gba c with
              | Some core => Some (mkGBACore (halted core) 0)
              | None => None
              end)
       (set_savedState (state c) (set_interruptDepth 1 c))).

(** [GBAThreadInterrupt] from the wait for an earlier interrupt on: what
    the outermost interrupt of an active context does once [savedState] is
    written. *)
Definition Interrupt_flip : M unit :=
  _waitOnInterrupt ;;
  write_state THREAD_INTERRUPTING ;;
  core_store (fun core => mkGBACore (halted core) 0) ;;
  ConditionWake stateCond ;;
  _waitUntilNotState THREAD_INTERRUPTING ;;
  MutexUnlock stateMutex.

(** [savedState] and [interruptDepth] are as before. *)
Definition same_interrupt_fields (w w' : World) : Prop :=
  savedState (ctx w') = savedState (ctx w) /\
  interruptDepth (ctx w') = interruptDepth (ctx w).

(** The state to which [GBAThreadContinue] moves a context: back to
    [savedState] when the depth falls below 1 on an active context. *)
Definition continued (c : GBAThread) : GBAThread :=
  let c' := set_interruptDepth (interruptDepth c - 1) c in
  if (interruptDepth c - 1 <? 1) && is_active (state c)
  then set_state (savedState c) c'
  else c'.

(** Where a sequence of interrupt calls stands when [d] interrupts are
    open: it started at depth 0 on a context in state [s0], with no mutex
    held.  If [s0] is not an active state nothing but the depth has moved;
    if it is, the first open interrupt has parked the worker in
    INTERRUPTED with [s0] saved. *)
Definition interrupts_open (s0 : ThreadState) (d : nat) (w : World) : Prop :=
  locks w = no_locks /\
  interruptDepth (ctx w) = Z.of_nat d /\
  (is_active s0 = false -> state (ctx w) = s0) /\
  (is_active s0 = true ->
     thread (ctx w) = true /\ gba (ctx w) <> None /\
     match d with
     | O => state (ctx w) = s0
     | S _ => state (ctx w) = THREAD_INTERRUPTED /\ savedState (ctx w) = s0
     end).

(** [GBAIsROM] on a possibly null handle. *)
Definition is_rom (p : option VFile) : bool :=
  match p with
  | Some vf => GBAIsROM vf
  | None => false
  end.

(** A ROM can be resolved: the handle given is a ROM, or some entry of the
    game directory opens as one. *)
Definition rom_resolvable (c : GBAThread) : bool :=
  is_rom (rom c)
  || match gameDir c with
     | Some dir => existsb is_rom (vd_entries dir)
     | None => false
     end.

(** [GBAThreadStart] up to the test of [threadContext->rom]: the reset of
    the state and of the channel, the check of the ROM handle, the scan of
    the game directory. *)
Definition Start_resolve : M unit :=
  write_state THREAD_INITIALIZED ;;
  modify (on_sync (set_videoFrameOn true)) ;;
  modify (on_sync (set_videoFrameSkip 0)) ;;
  r <- get rom ;;
  match r with
  | Some vf => when (negb (GBAIsROM vf)) (close_file vf ;; modify (set_rom None))
  | None => ret tt
  end ;;
  d <- get gameDir ;;
  match d with
  | Some dir => scan_dir (vd_entries dir)
  | None => ret tt
  end.

(** [GBAThreadStart] from the test of [threadContext->rom] on. *)
Definition Start_decide : M bool :=
  r <- get rom ;;
  if is_null r
  then write_state THREAD_SHUTDOWN ;; ret false
  else
    cfg <- ask ;;
    modify (fun c => set_save (VDirOptionalOpenFile (fs cfg) (stateDir c) (fname c)) c) ;;
    MutexInit stateMutex ;;
    ConditionInit stateCond ;;
    MutexInit videoFrameMutex ;;
    ConditionInit videoFrameAvailableCond ;;
    ConditionInit videoFrameRequiredCond ;;
    MutexInit audioBufferMutex ;;
    ConditionInit audioRequiredCond ;;
    modify (set_interruptDepth 0) ;;
    MutexLock stateMutex ;;
    ThreadCreate ;;
    while_ (s <- read_state ;; ret (state_ltb s THREAD_RUNNING))
      (ConditionWait stateCond stateMutex) ;;
    MutexUnlock stateMutex ;;
    ret true.

(** [GBAThreadStart] from its wait for the worker on. *)
Definition Start_wait : M bool :=
  while_ (s <- read_state ;; ret (state_ltb s THREAD_RUNNING))
    (ConditionWait stateCond stateMutex) ;;
  MutexUnlock stateMutex ;;
  ret true.

(** The log of [GBAThreadStart] between the resolution of the ROM and the
    wait for the worker, newest first. *)
Definition Start_setup_events : list Event :=
  [EvThreadCreate; EvLock stateMutex;
   EvConditionInit audioRequiredCond; EvMutexInit audioBufferMutex;
   EvConditionInit videoFrameRequiredCond; EvConditionInit videoFrameAvailableCond;
   EvMutexInit videoFrameMutex; EvConditionInit stateCond; EvMutexInit stateMutex].

(** The world once [GBAThreadStart] has looked for a ROM: a ROM handle is
    there exactly when one could be resolved; no thread, mutex or condition
    variable has been touched. *)
Definition resolved (w w1 : World) : Prop :=
  is_null (rom (ctx w1)) = negb (rom_resolvable (ctx w)) /\
  thread (ctx w1) = thread (ctx w) /\
  locks w1 = locks w /\
  clock w1 = clock w /\
  exists evs,
    trace w1 = evs ++ trace w /\
    forallb (fun e => negb (is_setup e)) evs = true.

(** The handles [GBAThreadJoin] releases, in the order it does: the four
    files, the game directory, and the state directory unless it is the
    very same pointer as the game directory. *)
Definition file_handles (p : option VFile) : list Handle :=
  match p with
  | Some vf => [file_handle vf]
  | None => []
  end.

Definition dir_handles (p : option VDir) : list Handle :=
  match p with
  | Some vd => [dir_handle vd]
  | None => []
  end.

Definition released_by_Join (c : GBAThread) : list Handle :=
  file_handles (rom c) ++ file_handles (save c) ++ file_handles (bios c) ++
  file_handles (patch c) ++ dir_handles (gameDir c) ++
  (if is_null (gameDir c) then dir_handles (stateDir c)
   else if VDir_ptr_eqb (stateDir c) (gameDir c) then [] else dir_handles (stateDir c)).

(** The handles closed in a log, newest first. *)
Fixpoint closed_handles (evs : list Event) : list Handle :=
  match evs with
  | [] => []
  | EvClose h :: rest => h :: closed_handles rest
  | _ :: rest => closed_handles rest
  end.

(** File names of a sample session. *)
Module Names.
Import String.
Definition game : String.string := "game.gba"%string.
Definition cheats : String.string := "game.cheats"%string.
End Names.

(** A command line with a game and a cheats file, on a file layer where
    both open. *)
Definition game_and_cheats : GBAArguments :=
  mkGBAArguments (Some Names.game) false None (Some Names.cheats) None.

Definition game_and_cheats_fs : FileSystem :=
  mkFileSystem
    (fun p =>
       match p with
       | Some name =>
           if String.eqb name Names.game then Some (mkVFile 1 true false)
           else if String.eqb name Names.cheats then Some (mkVFile 2 false false)
           else None
       | None => None
       end)
    (fun _ => None) false (fun _ => None) false (fun _ => None)
    (fun _ _ => Some (mkVFile 3 false false)).

(** A whole session of the host: map the arguments, start, end, join. *)
Definition session (args : GBAArguments) : M bool :=
  GBAMapArgumentsToContext args ;;
  ok <- GBAThreadStart ;;
  when ok (GBAThreadEnd ;; GBAThreadJoin) ;;
  ret ok.

(** A context on which nothing has been set. *)
Definition blank : GBAThread :=
  mkGBAThread THREAD_INITIALIZED THREAD_INITIALIZED 0
    (mkGBASync 0 false 0 false false) None false
    None None None None None None None None None.

(** The context [GBAThreadEnd] leaves: EXITING, the core no longer
    halted, both wait flags and the video output off. *)
Definition ended (c : GBAThread) : GBAThread :=
  on_sync (set_videoFrameOn false)
    (on_sync (set_videoFrameWait false)
       (on_sync (set_audioWait false)
          (set_gba (match gba c with
                    | Some core => Some (mkGBACore false (nextEvent core))
                    | None => None
                    end)
             (set_state THREAD_EXITING c)))).

(** What [GBAThreadEnd] does to the synchronisation objects, in order. *)
Definition End_events : list Event :=
  [EvLock stateMutex; EvStateRead true; EvStateWrite true; EvWake stateCond;
   EvUnlock stateMutex;
   EvLock audioBufferMutex; EvWake audioRequiredCond; EvUnlock audioBufferMutex;
   EvLock videoFrameMutex; EvWake videoFrameRequiredCond;
   EvWake videoFrameAvailableCond; EvUnlock videoFrameMutex].



(** One round of [_waitUntilNotState]: release [stateMutex], nudge both
    channels, let the others run, take [stateMutex] again, wake
    [stateCond]. *)
Definition waitUntilNotState_round : M unit :=
  MutexUnlock stateMutex ;;
  MutexLock videoFrameMutex ;;
  ConditionWake videoFrameRequiredCond ;;
  MutexUnlock videoFrameMutex ;;
  MutexLock audioBufferMutex ;;
  ConditionWake audioRequiredCond ;;
  MutexUnlock audioBufferMutex ;;
  give_way ;;
  MutexLock stateMutex ;;
  ConditionWake stateCond.

(** The host, with the thread that holds the interrupt as the other
    thread: at its turn it calls [GBAThreadContinue]. *)
Definition with_interrupter (n : nat) : Setting :=
  mkSetting Host n (fun _ => continued) (fun _ => false) empty_fs.

(** How many times a handle occurs in a list of handles. *)
Definition occurrences (h : Handle) (l : list Handle) : nat :=
  List.length (filter (Handle_eqb h) l).

(** The handle a file field took during a run: the one it holds after, if
    it was null before. *)
Definition kept (before after : option VFile) : list Handle :=
  if is_null before then file_handles after else [].

(** * Properties *)

(** ** Basic facts *)

Lemma ThreadId_eqb_refl (t : ThreadId) : ThreadId_eqb t t = true.
Proof. destruct t; reflexivity. Qed.

Lemma ThreadId_eqb_eq (a b : ThreadId) : ThreadId_eqb a b = true <-> a = b.
Proof. destruct a, b; simpl; split; intro H; try reflexivity; discriminate H. Qed.

Lemma holds_owner (t : ThreadId) (m : Mutex) (l : Locks) :
  holds t m l = true <-> owner m l = Some t.
Proof.
  unfold holds. destruct (owner m l) as [t'|].
  - rewrite ThreadId_eqb_eq. split; intro H; [ now subst | now inversion H ].
  - split; discriminate.
Qed.

Lemma history_log (e : Event) (w : World) : history (log e w) = history w ++ [e].
Proof. reflexivity. Qed.

(** One unfolding of a bounded loop. *)
Lemma while_upto_eq (n : nat) (test : M bool) (body : M unit) :
  while_upto n test body =
  (b <- test ;;
   if b
   then match n with
        | O => fail StillWaiting
        | S n' => body ;; while_upto n' test body
        end
   else ret tt).
Proof. destruct n; reflexivity. Qed.

(** A loop that returns has just seen its test fail. *)
Lemma while_upto_exit (n : nat) (test : M bool) (body : M unit)
    (cfg : Setting) (w w' : World) :
  while_upto n test body cfg w = Ok tt w' ->
  exists w1, test cfg w1 = Ok false w'.
Proof.
  revert w. induction n as [|n IH]; intros w H; simpl in H; unfold bind in H.
  - destruct (test cfg w) as [[] w1|f w1] eqn:E.
    + discriminate H.
    + inversion H; subst. now exists w.
    + discriminate H.
  - destruct (test cfg w) as [[] w1|f w1] eqn:E.
    + destruct (body cfg w1) as [[] w2|f w2]; [ now apply IH in H | discriminate H ].
    + inversion H; subst. now exists w.
    + discriminate H.
Qed.

(** ** The channel on a null pointer *)

(** C10.  Every channel operation is total on a null [struct GBASync*]:
    [PostFrame], [WaitFrameEnd], [SuspendDrawing], [ResumeDrawing],
    [ProduceAudio], [LockAudio], [UnlockAudio] and [ConsumeAudio] return at
    once and leave the whole world (memory, locks, log, clock) as it was;
    [WaitFrameStart] and [DrawingFrame] do the same and return [true]. *)
Theorem null_channel_is_total (cfg : Setting) (w : World) (frameskip : Z) (wait : bool) :
  GBASyncPostFrame NULL cfg w = Ok tt w /\
  GBASyncWaitFrameEnd NULL cfg w = Ok tt w /\
  GBASyncSuspendDrawing NULL cfg w = Ok tt w /\
  GBASyncResumeDrawing NULL cfg w = Ok tt w /\
  GBASyncProduceAudio NULL wait cfg w = Ok tt w /\
  GBASyncLockAudio NULL cfg w = Ok tt w /\
  GBASyncUnlockAudio NULL cfg w = Ok tt w /\
  GBASyncConsumeAudio NULL cfg w = Ok tt w /\
  GBASyncWaitFrameStart NULL frameskip cfg w = Ok true w /\
  GBASyncDrawingFrame NULL cfg w = Ok true w.
Proof. repeat split. Qed.

(** ** The consumer side of the video channel *)

(** Symbolic evaluation of a run. *)
Ltac msimpl :=
  repeat progress
    (cbn;
     unfold MutexLock, MutexUnlock, ConditionWait, ConditionWaitTimed, holds;
     cbn; rewrite ?ThreadId_eqb_refl).

(** Evaluation of the monadic plumbing and of the record operations only:
    tests on integers and states, and loops, are left as they stand. *)
Ltac mcbv :=
  cbv beta iota zeta delta
    [bind ret fail get modify emit ask orelse andalso when read_state write_state
     give_way log set_ctx set_locks MutexLock MutexUnlock MutexInit MutexDeinit
     ConditionInit ConditionDeinit ConditionWake ConditionWait ConditionWaitTimed
     ThreadCreate ThreadJoin holds owner set_owner state_is core_store while_ do_while
     ctx locks trace clock caller fuel others timedout fs with_worker alone as_thread
     stateOwner videoFrameOwner audioBufferOwner
     state savedState interruptDepth sync gba thread rom bios save patch cheatsFile
     gameDir stateDir fname movie
     videoFramePending videoFrameWait videoFrameSkip videoFrameOn audioWait
     set_state set_savedState set_interruptDepth set_sync set_gba set_thread set_rom
     set_bios set_save set_patch set_cheatsFile set_gameDir set_stateDir set_fname
     set_movie on_sync set_videoFramePending set_videoFrameWait set_videoFrameSkip
     set_videoFrameOn set_audioWait halted nextEvent negb andb orb is_null Bool.eqb
     close_file close_dir release_file].

Ltac mrun := repeat progress (mcbv; rewrite ?ThreadId_eqb_refl).

(** A world, its context and its channel as explicit records. *)
Ltac open_world w :=
  let c := fresh "c" in
  let l := fresh "l" in
  let tr := fresh "tr" in
  let k := fresh "k" in
  let sy := fresh "sy" in
  destruct w as [c l tr k];
  destruct l as [so vo ao];
  destruct c as [st saved depth sy core spawned rom_ bios_ save_ patch_ cheats_
                   gdir sdir fname_ movie_];
  destruct sy as [pending wait skip on await];
  cbn in *.

(** Taking a free mutex. *)
Lemma MutexLock_free (m : Mutex) (cfg : Setting) (w : World) :
  owner m (locks w) = None ->
  MutexLock m cfg w =
  Ok tt (set_locks (set_owner m (Some (caller cfg)) (locks w)) (log (EvLock m) w)).
Proof. intro H. unfold MutexLock. now rewrite H. Qed.

(** Asking for a held mutex. *)
Lemma MutexLock_held (m : Mutex) (t : ThreadId) (cfg : Setting) (w : World) :
  owner m (locks w) = Some t ->
  MutexLock m cfg w = Err (lock_fault t (caller cfg) m) w.
Proof.
  intro H. unfold MutexLock, lock_fault. rewrite H.
  now destruct (ThreadId_eqb t (caller cfg)).
Qed.

Lemma owner_set_owner (m : Mutex) (o : option ThreadId) (l : Locks) :
  owner m (set_owner m o l) = o.
Proof. destruct m; reflexivity. Qed.

Lemma holds_set_owner (t : ThreadId) (m : Mutex) (l : Locks) :
  holds t m (set_owner m (Some t) l) = true.
Proof. unfold holds. rewrite owner_set_owner. apply ThreadId_eqb_refl. Qed.

(** [GBASyncWaitFrameStart] on a free mutex, case by case. *)
Lemma WaitFrameStart_cases (cfg : Setting) (w : World) (frameskip : Z) :
  owner videoFrameMutex (locks w) = None ->
  let w1 := log (EvWake videoFrameRequiredCond)
              (set_locks (set_owner videoFrameMutex (Some (caller cfg)) (locks w))
                 (log (EvLock videoFrameMutex) w)) in
  let w2 := mkWorld (others cfg (clock w) (ctx w)) (locks w1)
              (EvWaitTimed videoFrameAvailableCond videoFrameMutex 50 :: trace w1)
              (S (clock w)) in
  let claim (v : World) :=
    set_ctx (on_sync (set_videoFrameSkip frameskip)
               (on_sync (set_videoFramePending 0) (ctx v))) v in
  GBASyncWaitFrameStart ThreadSync frameskip cfg w =
  if videoFrameOn (sync (ctx w))
  then if timedout cfg (clock w) then Ok false w2 else Ok true (claim w2)
  else if videoFramePending (sync (ctx w)) =? 0 then Ok false w1 else Ok true (claim w1).
Proof.
  intros Hfree w1 w2 claim.
  unfold GBASyncWaitFrameStart, bind.
  rewrite (MutexLock_free _ _ _ Hfree).
  subst w1 w2 claim. open_world w. subst. msimpl.
  destruct on; msimpl.
  - destruct (timedout cfg k); reflexivity.
  - destruct (pending =? 0); reflexivity.
Qed.

(** C6.  On a channel whose mutex is free, [GBASyncWaitFrameStart] first
    takes the mutex and signals [videoFrameRequiredCond]; it sleeps at most
    once, on [videoFrameAvailableCond] with a deadline of 50 ms, and only
    when [videoFrameOn] is set; it returns [false] exactly when the channel
    is dry and disabled ([videoFrameOn] false and [videoFramePending] zero,
    memory untouched) or when [videoFrameOn] is set and the timed wait ran
    into its deadline; in every other case it returns [true] with
    [videoFramePending] 0 and [videoFrameSkip] the given frameskip. *)
Theorem WaitFrameStart_return_conditions (cfg : Setting) (w : World) (frameskip : Z) :
  owner videoFrameMutex (locks w) = None ->
  exists (b : bool) (w' : World),
    GBASyncWaitFrameStart ThreadSync frameskip cfg w = Ok b w' /\
    history w' =
      history w ++ EvLock videoFrameMutex :: EvWake videoFrameRequiredCond ::
        (if videoFrameOn (sync (ctx w))
         then [EvWaitTimed videoFrameAvailableCond videoFrameMutex 50]
         else []) /\
    (b = false <->
       (videoFrameOn (sync (ctx w)) = false /\ videoFramePending (sync (ctx w)) = 0) \/
       (videoFrameOn (sync (ctx w)) = true /\ timedout cfg (clock w) = true)) /\
    (videoFrameOn (sync (ctx w)) = false -> videoFramePending (sync (ctx w)) = 0 ->
       ctx w' = ctx w) /\
    (b = true ->
       videoFramePending (sync (ctx w')) = 0 /\
       videoFrameSkip (sync (ctx w')) = frameskip).
Proof.
  intro Hfree. rewrite (WaitFrameStart_cases cfg w frameskip Hfree).
  unfold history.
  destruct (videoFrameOn (sync (ctx w))) eqn:Hon.
  - destruct (timedout cfg (clock w)) eqn:Hto; eexists; eexists;
      (split; [ reflexivity | ]); cbn; rewrite <- !app_assoc; cbn;
      (split; [ reflexivity | ]); repeat split; try discriminate; intros; auto.
    destruct H as [[H _]|[_ H]]; discriminate H.
  - destruct (videoFramePending (sync (ctx w)) =? 0) eqn:Hp; eexists; eexists;
      (split; [ reflexivity | ]); cbn; rewrite <- !app_assoc; cbn;
      (split; [ reflexivity | ]); repeat split; try discriminate; intros; auto.
    + left. split; [ reflexivity | now apply Z.eqb_eq ].
    + destruct H as [[_ H]|[H _]]; [ | discriminate H ].
      apply Z.eqb_neq in Hp. contradiction.
    + apply Z.eqb_neq in Hp. contradiction.
Qed.

(** A dry and disabled channel with a free mutex, polled by the renderer. *)
Lemma WaitFrameStart_return_conditions_witness :
  exists (b : bool) (w' : World),
    GBASyncWaitFrameStart ThreadSync 2 (alone Renderer 0)
      (mkWorld (mkGBAThread THREAD_PAUSED THREAD_RUNNING 0
                  (mkGBASync 0 true 0 false false) None true
                  None None None None None None None None None)
         no_locks [] 0%nat) = Ok b w' /\ b = false.
Proof.
  destruct (WaitFrameStart_return_conditions (alone Renderer 0)
              (mkWorld (mkGBAThread THREAD_PAUSED THREAD_RUNNING 0
                          (mkGBASync 0 true 0 false false) None true
                          None None None None None None None None None)
                 no_locks [] 0%nat) 2 eq_refl)
    as (b & w' & Hrun & _ & Hb & _).
  exists b, w'. split; [ exact Hrun | ].
  apply Hb. left. split; reflexivity.
Defined.

(** C9.  When [GBASyncWaitFrameStart] returns on a non-null channel,
    whatever it returns, the mutex was free at the call, the caller now
    holds [videoFrameMutex], and the call itself never released it; the
    matching [GBASyncWaitFrameEnd] returns and frees it without touching
    the memory; and until then no one gets the mutex: a second
    [GBASyncWaitFrameStart], a [GBASyncPostFrame] or a
    suspend/resume by any thread stops at its [MutexLock] (for the caller
    itself that is a relock of its own mutex). *)
Theorem WaitFrameStart_returns_with_mutex_held
    (cfg : Setting) (w : World) (frameskip : Z) (b : bool) (w' : World) :
  GBASyncWaitFrameStart ThreadSync frameskip cfg w = Ok b w' ->
  owner videoFrameMutex (locks w) = None /\
  owner videoFrameMutex (locks w') = Some (caller cfg) /\
  (exists evs, trace w' = evs ++ trace w /\
               In (EvLock videoFrameMutex) evs /\
               ~ In (EvUnlock videoFrameMutex) evs) /\
  (exists w'', GBASyncWaitFrameEnd ThreadSync cfg w' = Ok tt w'' /\
               owner videoFrameMutex (locks w'') = None /\
               ctx w'' = ctx w') /\
  (forall cfg2 k,
     GBASyncWaitFrameStart ThreadSync k cfg2 w' =
     Err (lock_fault (caller cfg) (caller cfg2) videoFrameMutex) w') /\
  (forall cfg2,
     GBASyncPostFrame ThreadSync cfg2 w' =
     Err (lock_fault (caller cfg) (caller cfg2) videoFrameMutex) w') /\
  (forall cfg2 frameOn,
     _changeVideoSync frameOn cfg2 w' =
     Err (lock_fault (caller cfg) (caller cfg2) videoFrameMutex) w').
Proof.
  intro Hrun.
  assert (Hfree : owner videoFrameMutex (locks w) = None).
  { destruct (owner videoFrameMutex (locks w)) as [t|] eqn:E; [ | reflexivity ].
    unfold GBASyncWaitFrameStart, bind in Hrun.
    rewrite (MutexLock_held _ _ _ _ E) in Hrun. discriminate Hrun. }
  split; [ exact Hfree | ].
  rewrite (WaitFrameStart_cases cfg w frameskip Hfree) in Hrun.
  assert (Hheld : owner videoFrameMutex (locks w') = Some (caller cfg) /\
                  exists evs, trace w' = evs ++ trace w /\
                              In (EvLock videoFrameMutex) evs /\
                              ~ In (EvUnlock videoFrameMutex) evs).
  { destruct (videoFrameOn (sync (ctx w)));
      [ destruct (timedout cfg (clock w))
      | destruct (videoFramePending (sync (ctx w)) =? 0) ];
      inversion Hrun; subst; (split; [ reflexivity | ]).
    1, 2: exists [EvWaitTimed videoFrameAvailableCond videoFrameMutex 50;
                  EvWake videoFrameRequiredCond; EvLock videoFrameMutex].
    3, 4: exists [EvWake videoFrameRequiredCond; EvLock videoFrameMutex].
    all: split; [ reflexivity | split; [ simpl; tauto | ] ].
    all: simpl; intros [H|[H|H]]; try discriminate H; try contradiction.
    all: destruct H as [H|H]; [ discriminate H | contradiction ]. }
  destruct Hheld as [Hown Hevs].
  split; [ exact Hown | ]. split; [ exact Hevs | ].
  split.
  - unfold GBASyncWaitFrameEnd, MutexUnlock.
    rewrite (proj2 (holds_owner _ _ _) Hown).
    eexists. split; [ reflexivity | ]. split; [ apply owner_set_owner | reflexivity ].
  - repeat split; intros.
    + unfold GBASyncWaitFrameStart, bind. now rewrite (MutexLock_held _ _ _ _ Hown).
    + unfold GBASyncPostFrame, bind. now rewrite (MutexLock_held _ _ _ _ Hown).
    + unfold _changeVideoSync, bind. now rewrite (MutexLock_held _ _ _ _ Hown).
Qed.

(** The renderer polls a running channel and the wait runs late: it
    still owns the mutex. *)
Lemma WaitFrameStart_returns_with_mutex_held_witness :
  owner videoFrameMutex
    (locks (final (GBASyncWaitFrameStart ThreadSync 0
                     (mkSetting Renderer 0 (fun _ c => c) (fun _ => true) empty_fs)
                     (mkWorld (mkGBAThread THREAD_RUNNING THREAD_RUNNING 0
                                 (mkGBASync 0 true 0 true false) None true
                                 None None None None None None None None None)
                        no_locks [] 0%nat)))) = Some Renderer.
Proof.
  exact (proj1 (proj2
    (WaitFrameStart_returns_with_mutex_held
       (mkSetting Renderer 0 (fun _ c => c) (fun _ => true) empty_fs)
       (mkWorld (mkGBAThread THREAD_RUNNING THREAD_RUNNING 0
                   (mkGBASync 0 true 0 true false) None true
                   None None None None None None None None None)
          no_locks [] 0%nat)
       0 false _ eq_refl))).
Defined.

(** ** Reasoning about runs *)

Lemma bind_Ok {A B} (m : M A) (k : A -> M B) (cfg : Setting) (w w' : World) (b : B) :
  bind m k cfg w = Ok b w' ->
  exists a w1, m cfg w = Ok a w1 /\ k a cfg w1 = Ok b w'.
Proof.
  unfold bind. destruct (m cfg w) as [a w1|f w1]; intro H; [ | discriminate H ].
  now exists a, w1.
Qed.

Lemma final_bind {A B} (m : M A) (k : A -> M B) (cfg : Setting) (w : World) :
  final (bind m k cfg w) =
  match m cfg w with
  | Ok a w1 => final (k a cfg w1)
  | Err _ w1 => w1
  end.
Proof. unfold bind. now destruct (m cfg w). Qed.

(** A relation between the world before and the world a run ends in
    (returned or not), closed under sequencing and looping when it is a
    preorder. *)
Section Steps.

Variable R : World -> World -> Prop.
Hypothesis R_refl : forall w, R w w.
Hypothesis R_trans : forall a b c, R a b -> R b c -> R a c.
Variable cfg : Setting.

Local Abbreviation steps := (steps R cfg).

Lemma steps_ret {A} (a : A) : steps (ret a).
Proof. intro w. apply R_refl. Qed.

Lemma steps_fail {A} (f : Fault) : steps (@fail A f).
Proof. intro w. apply R_refl. Qed.

Lemma steps_ask : steps ask.
Proof. intro w. apply R_refl. Qed.

Lemma steps_get {A} (f : GBAThread -> A) : steps (get f).
Proof. intro w. apply R_refl. Qed.

Lemma steps_bind {A B} (m : M A) (k : A -> M B) :
  steps m -> (forall a, steps (k a)) -> steps (bind m k).
Proof.
  intros Hm Hk w. rewrite final_bind. specialize (Hm w).
  destruct (m cfg w) as [a w1|f w1]; simpl in Hm; [ | exact Hm ].
  eapply R_trans; [ exact Hm | apply Hk ].
Qed.

Lemma steps_when (b : bool) (m : M unit) : steps m -> steps (when b m).
Proof. intro H. destruct b; [ exact H | apply steps_ret ]. Qed.

Lemma steps_while_upto (n : nat) (test : M bool) (body : M unit) :
  steps test -> steps body -> steps (while_upto n test body).
Proof.
  intros Ht Hb. induction n as [|n IH]; rewrite while_upto_eq;
    apply steps_bind; try exact Ht; intros [].
  - apply steps_fail.
  - apply steps_ret.
  - apply steps_bind; [ exact Hb | intros _; exact IH ].
  - apply steps_ret.
Qed.

Lemma steps_while (test : M bool) (body : M unit) :
  steps test -> steps body -> steps (while_ test body).
Proof. intros Ht Hb w. unfold while_. now apply steps_while_upto. Qed.

Lemma steps_do_while (body : M unit) (test : M bool) :
  steps body -> steps test -> steps (do_while body test).
Proof.
  intros Hb Ht. apply steps_bind; [ exact Hb | intros _; now apply steps_while ].
Qed.

Lemma steps_orelse (a b : M bool) : steps a -> steps b -> steps (orelse a b).
Proof. intros Ha Hb. apply steps_bind; [ exact Ha | intros []; [ apply steps_ret | exact Hb ] ]. Qed.

Lemma steps_andalso (a b : M bool) : steps a -> steps b -> steps (andalso a b).
Proof. intros Ha Hb. apply steps_bind; [ exact Ha | intros []; [ exact Hb | apply steps_ret ] ]. Qed.

End Steps.

(** Splits a [steps] goal along the structure of the program, down to the
    primitives that change the world. *)
Ltac steps_split Hrefl Htrans :=
  repeat first
    [ apply (steps_ret _ Hrefl)
    | apply (steps_fail _ Hrefl)
    | apply (steps_ask _ Hrefl)
    | apply (steps_get _ Hrefl)
    | apply (steps_bind _ Htrans); [ | intro ]
    | apply (steps_when _ Hrefl)
    | apply (steps_while _ Hrefl Htrans)
    | apply (steps_do_while _ Hrefl Htrans)
    | apply (steps_orelse _ Hrefl Htrans)
    | apply (steps_andalso _ Hrefl Htrans)
    | match goal with
      | |- steps _ _ (if ?b then _ else _) => destruct b
      | |- steps _ _ (match ?x with Some _ => _ | None => _ end) => destruct x
      end ].

(** *** The log only grows *)

Lemma grows_refl (w : World) : grows w w.
Proof. now exists []. Qed.

Lemma grows_trans (a b c : World) : grows a b -> grows b c -> grows a c.
Proof.
  intros [e1 H1] [e2 H2]. exists (e2 ++ e1). now rewrite H2, H1, app_assoc.
Qed.

Lemma grows_prim (cfg : Setting) :
  (forall e, steps grows cfg (emit e)) /\
  (forall f, steps grows cfg (modify f)) /\
  steps grows cfg read_state /\
  (forall s, steps grows cfg (write_state s)) /\
  steps grows cfg give_way /\
  (forall m, steps grows cfg (MutexLock m)) /\
  (forall m, steps grows cfg (MutexUnlock m)) /\
  (forall m, steps grows cfg (MutexInit m)) /\
  (forall c m, steps grows cfg (ConditionWait c m)) /\
  (forall c m t, steps grows cfg (ConditionWaitTimed c m t)).
Proof.
  repeat split; intros; intro w;
    unfold MutexLock, MutexUnlock, ConditionWait, ConditionWaitTimed;
    repeat match goal with
           | |- context [match ?x with _ => _ end] => destruct x
           end;
    cbn; first [ apply grows_refl | now exists [] | eexists (cons _ nil); reflexivity ].
Qed.

(** ** C integers in range *)

Lemma wrap_in_range (z : Z) : CInt.in_range z -> CInt.wrap z = z.
Proof.
  unfold CInt.in_range, CInt.INT_MIN, CInt.INT_MAX, CInt.wrap. intro H.
  rewrite Z.mod_small; lia.
Qed.

Lemma incr_in_range (z : Z) :
  CInt.INT_MIN <= z < CInt.INT_MAX -> CInt.incr z = z + 1.
Proof.
  intro H. unfold CInt.incr. apply wrap_in_range.
  unfold CInt.in_range, CInt.INT_MIN, CInt.INT_MAX in *. lia.
Qed.

Lemma decr_in_range (z : Z) :
  CInt.INT_MIN < z <= CInt.INT_MAX -> CInt.decr z = z - 1.
Proof.
  intro H. unfold CInt.decr. apply wrap_in_range.
  unfold CInt.in_range, CInt.INT_MIN, CInt.INT_MAX in *. lia.
Qed.

(** ** The producer side of the video channel *)

Lemma set_owner_release (m : Mutex) (o : option ThreadId) (l : Locks) :
  owner m l = None -> set_owner m None (set_owner m o l) = l.
Proof. destruct m, l; simpl; intro H; now subst. Qed.

(** [GBASyncPostFrame] up to its loop. *)
Lemma PostFrame_unfold (cfg : Setting) (w : World) :
  owner videoFrameMutex (locks w) = None ->
  GBASyncPostFrame ThreadSync cfg w =
  (when (videoFrameSkip (sync (posted (ctx w))) <? 0)
     (do_while PostFrame_body PostFrame_test) ;;
   MutexUnlock videoFrameMutex) cfg
    (mkWorld (posted (ctx w))
       (set_owner videoFrameMutex (Some (caller cfg)) (locks w))
       (EvLock videoFrameMutex :: trace w) (clock w)).
Proof.
  intros Hfree. unfold GBASyncPostFrame, bind at 1 2 3 4.
  now rewrite (MutexLock_free _ _ _ Hfree).
Qed.

(** A skipped frame: counted, not signalled, not slept on. *)
Lemma PostFrame_skipped (cfg : Setting) (w : World) :
  owner videoFrameMutex (locks w) = None ->
  0 <= videoFrameSkip (sync (posted (ctx w))) ->
  GBASyncPostFrame ThreadSync cfg w =
  Ok tt (mkWorld (posted (ctx w)) (locks w)
           (EvUnlock videoFrameMutex :: EvLock videoFrameMutex :: trace w)
           (clock w)).
Proof.
  intros Hfree Hskip. rewrite (PostFrame_unfold cfg w Hfree).
  apply Z.ltb_ge in Hskip. rewrite Hskip. cbn [when].
  unfold bind, ret, MutexUnlock. cbn [locks]. rewrite holds_set_owner.
  unfold set_locks, log. cbn [ctx locks trace clock].
  now rewrite (set_owner_release _ _ _ Hfree).
Qed.

(** A frame that is due, without VSync: signalled, not slept on. *)
Lemma PostFrame_signalled (cfg : Setting) (w : World) :
  owner videoFrameMutex (locks w) = None ->
  videoFrameSkip (sync (posted (ctx w))) < 0 ->
  videoFrameWait (sync (ctx w)) = false ->
  GBASyncPostFrame ThreadSync cfg w =
  Ok tt (mkWorld (posted (ctx w)) (locks w)
           (EvUnlock videoFrameMutex :: EvWake videoFrameAvailableCond ::
            EvLock videoFrameMutex :: trace w)
           (clock w)).
Proof.
  intros Hfree Hskip Hwait. rewrite (PostFrame_unfold cfg w Hfree).
  apply Z.ltb_lt in Hskip. rewrite Hskip. cbn [when].
  unfold do_while, PostFrame_body, bind, ConditionWake, emit, get, log.
  cbn [ctx locks trace clock].
  assert (Hw : videoFrameWait (sync (posted (ctx w))) = false) by exact Hwait.
  rewrite Hw. cbn [when ret].
  unfold while_. rewrite while_upto_eq. unfold bind, PostFrame_test, get.
  cbn [ctx]. rewrite Hw. cbn [andb ret].
  unfold MutexUnlock. cbn [locks]. rewrite holds_set_owner.
  unfold set_locks, log. cbn [ctx locks trace clock].
  now rewrite (set_owner_release _ _ _ Hfree).
Qed.

(** A frame that is due, with VSync: the run up to and including the
    first sleep. *)
Lemma PostFrame_sleeps (cfg : Setting) (w : World) :
  owner videoFrameMutex (locks w) = None ->
  videoFrameSkip (sync (posted (ctx w))) < 0 ->
  videoFrameWait (sync (ctx w)) = true ->
  GBASyncPostFrame ThreadSync cfg w =
  (while_ PostFrame_test PostFrame_body ;; MutexUnlock videoFrameMutex) cfg
    (mkWorld (others cfg (clock w) (posted (ctx w)))
       (set_owner videoFrameMutex (Some (caller cfg)) (locks w))
       (EvWait videoFrameRequiredCond videoFrameMutex ::
        EvWake videoFrameAvailableCond :: EvLock videoFrameMutex :: trace w)
       (S (clock w))).
Proof.
  intros Hfree Hskip Hwait. rewrite (PostFrame_unfold cfg w Hfree).
  apply Z.ltb_lt in Hskip. rewrite Hskip. cbn [when].
  assert (Hw : videoFrameWait (sync (posted (ctx w))) = true) by exact Hwait.
  unfold do_while, PostFrame_body, bind at 1 2 3 4 5, ConditionWake, emit, get, log.
  cbn [ctx locks trace clock]. rewrite Hw. cbn [when].
  unfold ConditionWait. cbn [locks]. rewrite holds_set_owner.
  reflexivity.
Qed.



Lemma grows_PostFrame_rest (cfg : Setting) :
  steps grows cfg (while_ PostFrame_test PostFrame_body ;; MutexUnlock videoFrameMutex).
Proof.
  pose proof (grows_prim cfg) as (He & Hm & Hr & Hw & Hg & Hl & Hu & Hi & Hcw & Hct).
  unfold PostFrame_test, PostFrame_body, ConditionWake.
  steps_split grows_refl grows_trans; auto.
Qed.

(** Whether it sleeps or not, a frame that is due is signalled first. *)
Lemma PostFrame_due_signals (cfg : Setting) (w : World) :
  owner videoFrameMutex (locks w) = None ->
  videoFrameSkip (sync (posted (ctx w))) < 0 ->
  exists evs,
    history (final (GBASyncPostFrame ThreadSync cfg w)) =
    history w ++ EvLock videoFrameMutex :: EvWake videoFrameAvailableCond :: evs.
Proof.
  intros Hfree Hskip. destruct (videoFrameWait (sync (ctx w))) eqn:Hwait.
  - rewrite (PostFrame_sleeps cfg w Hfree Hskip Hwait).
    match goal with
    | |- context [bind _ _ _ ?w1] => destruct (grows_PostFrame_rest cfg w1) as [evs Hevs]
    end.
    exists (EvWait videoFrameRequiredCond videoFrameMutex :: rev evs).
    unfold history. rewrite Hevs. cbn [trace].
    rewrite rev_app_distr. cbn [rev]. now rewrite <- !app_assoc.
  - rewrite (PostFrame_signalled cfg w Hfree Hskip Hwait).
    exists [EvUnlock videoFrameMutex]. unfold history. cbn [final trace rev].
    now rewrite <- !app_assoc.
Qed.




(** ** The frameskip contract *)

(** As long as the skip counter stays nonnegative, frames are produced
    without a signal and without a sleep, and the video code is told not
    to draw them. *)
Lemma produce_frames_skipped (i : nat) (cfg : Setting) (w : World) :
  owner videoFrameMutex (locks w) = None ->
  Z.of_nat i <= videoFrameSkip (sync (ctx w)) <= CInt.INT_MAX ->
  exists w' evs,
    produce_frames i cfg w = Ok (repeat false i) w' /\
    videoFrameSkip (sync (ctx w')) = videoFrameSkip (sync (ctx w)) - Z.of_nat i /\
    trace w' = evs ++ trace w /\
    forallb is_lock_only evs = true /\
    clock w' = clock w /\
    locks w' = locks w.
Proof.
  revert w. induction i as [|i IH]; intros w Hfree Hskip.
  - exists w, []. cbn. repeat split. lia.
  - assert (Hdecr : CInt.decr (videoFrameSkip (sync (ctx w))) =
                    videoFrameSkip (sync (ctx w)) - 1).
    { apply decr_in_range. unfold CInt.INT_MIN. lia. }
    assert (Hpost : videoFrameSkip (sync (posted (ctx w))) =
                    videoFrameSkip (sync (ctx w)) - 1) by exact Hdecr.
    cbn [produce_frames]. unfold bind at 1, GBASyncDrawingFrame at 1, get at 1.
    assert (Hdraw : (videoFrameSkip (sync (ctx w)) <=? 0) = false) by (apply Z.leb_gt; lia).
    rewrite Hdraw. unfold bind at 1.
    rewrite (PostFrame_skipped cfg w Hfree) by (rewrite Hpost; lia).
    match goal with
    | |- context [bind (produce_frames i) _ _ ?w1] =>
        destruct (IH w1) as (w' & evs & Hrun & Hs & Ht & Hl & Hc & Hk);
          [ exact Hfree | cbn [ctx]; rewrite Hpost; lia | ]
    end.
    exists w', (evs ++ [EvUnlock videoFrameMutex; EvLock videoFrameMutex]).
    unfold bind. rewrite Hrun. cbn [ctx trace clock locks] in *.
    split; [ reflexivity | ].
    split; [ rewrite Hs, Hpost; lia | ].
    split; [ now rewrite Ht, <- app_assoc | ].
    split; [ rewrite forallb_app, Hl; reflexivity | ].
    now split.
Qed.

(** C2.  Let [GBASyncWaitFrameStart] with a frameskip [k >= 0] return
    [true] to the consumer, and let the consumer close its bracket with
    [GBASyncWaitFrameEnd] (until then no producer gets the mutex).  Then
    [videoFramePending] is 0 and [videoFrameSkip] is [k]; for every
    [i <= k] the next [i] frames are produced with [GBASyncDrawingFrame]
    answering [false] before each, every [GBASyncPostFrame] returning with
    nothing but its lock and unlock in the log (no signal, no sleep, the
    other threads never given way) and [videoFrameSkip] at [k - i >= 0];
    and after the [k] skipped frames [GBASyncDrawingFrame] answers [true]
    and the next [GBASyncPostFrame] signals [videoFrameAvailableCond]. *)
Theorem frameskip_contract (consumer producer : Setting) (w w1 w2 : World) (k : nat) :
  Z.of_nat k <= CInt.INT_MAX ->
  GBASyncWaitFrameStart ThreadSync (Z.of_nat k) consumer w = Ok true w1 ->
  GBASyncWaitFrameEnd ThreadSync consumer w1 = Ok tt w2 ->
  videoFramePending (sync (ctx w1)) = 0 /\
  videoFrameSkip (sync (ctx w1)) = Z.of_nat k /\
  (forall i, (i <= k)%nat ->
     exists wi evs,
       produce_frames i producer w2 = Ok (repeat false i) wi /\
       videoFrameSkip (sync (ctx wi)) = Z.of_nat k - Z.of_nat i /\
       0 <= videoFrameSkip (sync (ctx wi)) /\
       trace wi = evs ++ trace w2 /\
       forallb is_lock_only evs = true /\
       clock wi = clock w2) /\
  exists wk,
    produce_frames k producer w2 = Ok (repeat false k) wk /\
    GBASyncDrawingFrame ThreadSync producer wk = Ok true wk /\
    exists evs,
      history (final (GBASyncPostFrame ThreadSync producer wk)) =
      history wk ++ EvLock videoFrameMutex :: EvWake videoFrameAvailableCond :: evs.
Proof.
  intros Hk Hstart Hend.
  assert (Hfree : owner videoFrameMutex (locks w) = None).
  { destruct (owner videoFrameMutex (locks w)) as [t|] eqn:E; [ | reflexivity ].
    unfold GBASyncWaitFrameStart, bind in Hstart.
    rewrite (MutexLock_held _ _ _ _ E) in Hstart. discriminate Hstart. }
  rewrite (WaitFrameStart_cases consumer w (Z.of_nat k) Hfree) in Hstart.
  assert (H1 : videoFramePending (sync (ctx w1)) = 0 /\
               videoFrameSkip (sync (ctx w1)) = Z.of_nat k).
  { destruct (videoFrameOn (sync (ctx w)));
      [ destruct (timedout consumer (clock w))
      | destruct (videoFramePending (sync (ctx w)) =? 0) ];
      inversion Hstart; subst; now split. }
  destruct H1 as [Hpend Hskip].
  assert (H2 : ctx w2 = ctx w1 /\ owner videoFrameMutex (locks w2) = None).
  { unfold GBASyncWaitFrameEnd, MutexUnlock in Hend.
    destruct (holds (caller consumer) videoFrameMutex (locks w1)); [ | discriminate Hend ].
    inversion Hend; subst. split; reflexivity. }
  destruct H2 as [Hctx Hfree2].
  split; [ exact Hpend | ]. split; [ exact Hskip | ].
  split.
  - intros i Hi.
    destruct (produce_frames_skipped i producer w2 Hfree2)
      as (wi & evs & Hrun & Hs & Ht & Hl & Hc & _);
      [ rewrite Hctx, Hskip; lia | ].
    exists wi, evs. rewrite Hctx, Hskip in Hs.
    repeat split; try assumption. lia.
  - destruct (produce_frames_skipped k producer w2 Hfree2)
      as (wk & evs & Hrun & Hs & Ht & Hl & Hc & Hlk);
      [ rewrite Hctx, Hskip; lia | ].
    rewrite Hctx, Hskip in Hs.
    exists wk. split; [ exact Hrun | ]. split.
    + unfold GBASyncDrawingFrame, get. rewrite Hs.
      now replace (Z.of_nat k - Z.of_nat k <=? 0) with true
        by (symmetry; apply Z.leb_le; lia).
    + apply PostFrame_due_signals; [ now rewrite Hlk | ].
      assert (Hp : videoFrameSkip (sync (posted (ctx wk))) =
                   CInt.decr (videoFrameSkip (sync (ctx wk)))) by reflexivity.
      rewrite Hp, Hs, decr_in_range; unfold CInt.INT_MIN, CInt.INT_MAX; lia.
Qed.

(** The renderer asks for every third frame of a running channel. *)
Lemma frameskip_contract_witness :
  exists wk,
    produce_frames 2 (alone Worker 0)
      (final (GBASyncWaitFrameEnd ThreadSync (alone Renderer 0)
                (final (GBASyncWaitFrameStart ThreadSync 2 (alone Renderer 0)
                          (fresh_world (started THREAD_RUNNING
                                          (mkGBASync 1 false 0 true false)))))))
    = Ok [false; false] wk /\
    GBASyncDrawingFrame ThreadSync (alone Worker 0) wk = Ok true wk.
Proof.
  destruct (frameskip_contract (alone Renderer 0) (alone Worker 0)
              (fresh_world (started THREAD_RUNNING (mkGBASync 1 false 0 true false)))
              (final (GBASyncWaitFrameStart ThreadSync 2 (alone Renderer 0)
                        (fresh_world (started THREAD_RUNNING
                                        (mkGBASync 1 false 0 true false)))))
              (final (GBASyncWaitFrameEnd ThreadSync (alone Renderer 0)
                (final (GBASyncWaitFrameStart ThreadSync 2 (alone Renderer 0)
                          (fresh_world (started THREAD_RUNNING
                                          (mkGBASync 1 false 0 true false)))))))
              2%nat)
    as (_ & _ & _ & wk & Hrun & Hdraw & _).
  - cbn. unfold CInt.INT_MAX. lia.
  - reflexivity.
  - reflexivity.
  - exists wk. split; [ exact Hrun | exact Hdraw ].
Defined.

(** ** The state order and the queries *)

Lemma state_eqb_eq (a b : ThreadState) : state_eqb a b = true <-> a = b.
Proof.
  unfold state_eqb. rewrite Z.eqb_eq.
  split; [ | now intros -> ].
  destruct a, b; simpl; intro H; try reflexivity; discriminate H.
Qed.

Lemma state_eqb_neq (a b : ThreadState) : state_eqb a b = false <-> a <> b.
Proof.
  rewrite <- state_eqb_eq. destruct (state_eqb a b); split; intro H;
    try reflexivity; try discriminate H; try (intro H'; discriminate H').
  now contradiction H.
Qed.

(** The order the specification asks of [enum ThreadState]. *)
Lemma state_rank_order :
  state_rank THREAD_INITIALIZED < state_rank THREAD_RUNNING /\
  (forall s, In s [THREAD_RESETING; THREAD_INTERRUPTING; THREAD_INTERRUPTED;
                   THREAD_PAUSING; THREAD_PAUSED] ->
             state_rank THREAD_RUNNING < state_rank s < state_rank THREAD_EXITING) /\
  state_rank THREAD_EXITING < state_rank THREAD_SHUTDOWN /\
  state_rank THREAD_EXITING < state_rank THREAD_CRASHED.
Proof.
  repeat split; simpl in *; try lia;
    repeat match goal with H : _ \/ _ |- _ => destruct H end;
    subst; simpl; try lia; contradiction.
Qed.

Lemma waited_on_state_refl (t : ThreadId) (w : World) : waited_on_state t w w.
Proof. split; [ reflexivity | now exists [] ]. Qed.

Lemma waited_on_state_trans (t : ThreadId) (a b c : World) :
  waited_on_state t a b -> waited_on_state t b c -> waited_on_state t a c.
Proof.
  intros [Hl1 (e1 & Ht1 & Hf1)] [Hl2 (e2 & Ht2 & Hf2)].
  split; [ now rewrite Hl2 | ].
  exists (e2 ++ e1). split; [ now rewrite Ht2, Ht1, app_assoc | ].
  apply Forall_app. split; [ now rewrite Hl1 in Hf2 | exact Hf1 ].
Qed.

(** [_waitOnInterrupt] only reads the state and sleeps on [stateCond]. *)
Lemma waitOnInterrupt_waits (cfg : Setting) :
  steps (waited_on_state (caller cfg)) cfg _waitOnInterrupt.
Proof.
  unfold _waitOnInterrupt, state_is.
  steps_split (waited_on_state_refl (caller cfg)) (waited_on_state_trans (caller cfg)).
  - intro w. split; [ reflexivity | ].
    exists [EvStateRead (holds (caller cfg) stateMutex (locks w))].
    split; [ reflexivity | ]. constructor; [ now left | constructor ].
  - intro w. unfold ConditionWait.
    destruct (holds (caller cfg) stateMutex (locks w));
      [ | apply waited_on_state_refl ].
    split; [ reflexivity | ].
    exists [EvWait stateCond stateMutex].
    split; [ reflexivity | ]. constructor; [ now right | constructor ].
Qed.

(** When it returns, the state is no longer INTERRUPTED. *)
Lemma waitOnInterrupt_exit (cfg : Setting) (w w' : World) :
  _waitOnInterrupt cfg w = Ok tt w' ->
  state (ctx w') <> THREAD_INTERRUPTED /\ waited_on_state (caller cfg) w w'.
Proof.
  intro H. split.
  - unfold _waitOnInterrupt, while_ in H. apply while_upto_exit in H.
    destruct H as [w1 H]. unfold state_is, bind, read_state, ret in H.
    inversion H; subst. now apply state_eqb_neq.
  - pose proof (waitOnInterrupt_waits cfg w) as Hw. now rewrite H in Hw.
Qed.

(** Outside an interrupt it returns at once, whatever the loop bound. *)
Lemma waitOnInterrupt_skip (cfg : Setting) (w : World) :
  state (ctx w) <> THREAD_INTERRUPTED ->
  _waitOnInterrupt cfg w =
  Ok tt (log (EvStateRead (holds (caller cfg) stateMutex (locks w))) w).
Proof.
  intro H. apply state_eqb_neq in H.
  unfold _waitOnInterrupt, while_. rewrite while_upto_eq.
  unfold state_is, bind, read_state, ret. now rewrite H.
Qed.

Lemma Forall_reads_guarded (evs : list Event) :
  Forall (fun e => e = EvStateRead true \/ e = EvWait stateCond stateMutex) evs ->
  reads_guarded evs = true.
Proof.
  induction 1 as [|e l [He|He] _ IH]; [ reflexivity | | ]; subst; exact IH.
Qed.

(** The three queries that lock, read once and unlock. *)
Lemma locked_query (cfg : Setting) (w : World) (test : ThreadState -> bool) :
  owner stateMutex (locks w) = None ->
  (MutexLock stateMutex ;;
   s <- read_state ;;
   MutexUnlock stateMutex ;;
   ret (test s)) cfg w =
  Ok (test (state (ctx w)))
     (mkWorld (ctx w) (locks w)
        (EvUnlock stateMutex :: EvStateRead true :: EvLock stateMutex :: trace w)
        (clock w)).
Proof.
  intro Hfree. unfold bind at 1. rewrite (MutexLock_free _ _ _ Hfree).
  unfold bind, read_state, MutexUnlock, ret. cbn [locks log set_locks ctx].
  rewrite holds_set_owner. unfold set_locks, log. cbn [ctx locks trace clock].
  now rewrite (set_owner_release _ _ _ Hfree).
Qed.

Lemma IsActive_run (cfg : Setting) (w : World) :
  exists evs,
    GBAThreadIsActive cfg w =
    Ok (is_active (state (ctx w)))
       (mkWorld (ctx w) (locks w) (evs ++ trace w) (clock w)) /\
    evs <> [] /\
    Forall (eq (EvStateRead (holds (caller cfg) stateMutex (locks w)))) evs.
Proof.
  unfold GBAThreadIsActive, andalso, bind, read_state, ret, is_active, log.
  cbn [ctx locks trace clock].
  destruct (state_leb THREAD_RUNNING (state (ctx w))); cbn [andb].
  - exists [EvStateRead (holds (caller cfg) stateMutex (locks w));
            EvStateRead (holds (caller cfg) stateMutex (locks w))].
    split; [ reflexivity | split; [ discriminate | repeat constructor ] ].
  - exists [EvStateRead (holds (caller cfg) stateMutex (locks w))].
    split; [ reflexivity | split; [ discriminate | repeat constructor ] ].
Qed.

Lemma IsPaused_returns (cfg : Setting) (w : World) (b : bool) (w' : World) :
  owner stateMutex (locks w) = None ->
  GBAThreadIsPaused cfg w = Ok b w' ->
  b = state_eqb (state (ctx w')) THREAD_PAUSED /\
  state (ctx w') <> THREAD_INTERRUPTED /\
  locks w' = locks w /\
  exists evs, trace w' = evs ++ trace w /\ reads_guarded evs = true.
Proof.
  intros Hfree H. unfold GBAThreadIsPaused in H.
  unfold bind at 1 in H. rewrite (MutexLock_free _ _ _ Hfree) in H.
  apply bind_Ok in H. destruct H as ([] & w1 & Hwait & H).
  apply waitOnInterrupt_exit in Hwait.
  destruct Hwait as [Hst [Hl (evs & Ht & Hf)]].
  cbn [locks set_locks log trace] in Hl, Ht, Hf. rewrite holds_set_owner in Hf.
  unfold state_is in H. unfold bind, read_state, ret, MutexUnlock in H.
  cbn [locks log ctx] in H. rewrite Hl, holds_set_owner in H.
  inversion H; subst. cbn [ctx locks set_locks log trace].
  split; [ reflexivity | ]. split; [ exact Hst | ].
  split; [ exact (set_owner_release stateMutex (Some (caller cfg)) (locks w) Hfree) | ].
  exists (EvUnlock stateMutex :: EvStateRead true :: evs ++ [EvLock stateMutex]).
  rewrite Ht. split; [ cbn; now rewrite <- app_assoc | ].
  apply Forall_reads_guarded in Hf. unfold reads_guarded in *.
  cbn [forallb app]. rewrite forallb_app, Hf. reflexivity.
Qed.

(** C8 as the code has it.  On a free [stateMutex], [GBAThreadHasStarted],
    [GBAThreadHasExited] and [GBAThreadHasCrashed] lock, read the state
    once under the lock, unlock, and return [state > INITIALIZED],
    [state > EXITING] and [state == CRASHED]; [GBAThreadIsPaused] reads the
    state only under the lock, waits out an interrupt first, and returns
    whether the state it last read is PAUSED (at once when the state is
    not INTERRUPTED).  [GBAThreadIsActive] returns
    [RUNNING <= state < EXITING] but takes no lock of its own: the world is
    unchanged but for its reads, and they are made under [stateMutex]
    exactly when the caller already holds it, as [GBAThreadInterrupt] and
    [GBAThreadContinue] do. *)
Theorem queries_read_state (cfg : Setting) (w : World) :
  owner stateMutex (locks w) = None ->
  let locked_read :=
    mkWorld (ctx w) (locks w)
      (EvUnlock stateMutex :: EvStateRead true :: EvLock stateMutex :: trace w)
      (clock w) in
  GBAThreadHasStarted cfg w =
    Ok (state_rank THREAD_INITIALIZED <? state_rank (state (ctx w))) locked_read /\
  GBAThreadHasExited cfg w =
    Ok (state_rank THREAD_EXITING <? state_rank (state (ctx w))) locked_read /\
  GBAThreadHasCrashed cfg w =
    Ok (state_rank (state (ctx w)) =? state_rank THREAD_CRASHED) locked_read /\
  (forall b w',
     GBAThreadIsPaused cfg w = Ok b w' ->
     b = (state_rank (state (ctx w')) =? state_rank THREAD_PAUSED) /\
     locks w' = locks w /\
     exists evs, trace w' = evs ++ trace w /\ reads_guarded evs = true) /\
  (state (ctx w) <> THREAD_INTERRUPTED ->
     GBAThreadIsPaused cfg w =
     Ok (state_rank (state (ctx w)) =? state_rank THREAD_PAUSED)
        (mkWorld (ctx w) (locks w)
           (EvUnlock stateMutex :: EvStateRead true :: EvStateRead true ::
            EvLock stateMutex :: trace w)
           (clock w))) /\
  (forall v : World,
     exists evs,
       GBAThreadIsActive cfg v =
       Ok ((state_rank THREAD_RUNNING <=? state_rank (state (ctx v)))
           && (state_rank (state (ctx v)) <? state_rank THREAD_EXITING))
          (mkWorld (ctx v) (locks v) (evs ++ trace v) (clock v)) /\
       evs <> [] /\
       Forall (eq (EvStateRead (holds (caller cfg) stateMutex (locks v)))) evs).
Proof.
  intros Hfree locked_read.
  split; [ apply (locked_query cfg w (state_ltb THREAD_INITIALIZED) Hfree) | ].
  split; [ apply (locked_query cfg w (state_ltb THREAD_EXITING) Hfree) | ].
  split; [ apply (locked_query cfg w (fun s => state_eqb s THREAD_CRASHED) Hfree) | ].
  split; [ | split ].
  - intros b w' H. destruct (IsPaused_returns cfg w b w' Hfree H) as (Hb & _ & Hl & He).
    now repeat split.
  - intro Hst. unfold GBAThreadIsPaused.
    unfold bind at 1. rewrite (MutexLock_free _ _ _ Hfree).
    unfold bind at 1. rewrite waitOnInterrupt_skip by exact Hst.
    unfold state_is. unfold bind, read_state, ret, MutexUnlock.
    cbn [locks log set_locks ctx]. rewrite !holds_set_owner.
    unfold set_locks, log. cbn [ctx locks trace clock].
    now rewrite (set_owner_release _ _ _ Hfree).
  - intro v. apply IsActive_run.
Qed.

(** The host asks a paused context whether it has started. *)
Lemma queries_read_state_witness :
  GBAThreadHasStarted (alone Host 0)
    (fresh_world (started THREAD_PAUSED (mkGBASync 0 false 0 false false))) =
  Ok true
    (mkWorld (started THREAD_PAUSED (mkGBASync 0 false 0 false false)) no_locks
       [EvUnlock stateMutex; EvStateRead true; EvLock stateMutex] 0%nat).
Proof.
  exact (proj1 (queries_read_state (alone Host 0)
                  (fresh_world (started THREAD_PAUSED (mkGBASync 0 false 0 false false)))
                  eq_refl)).
Defined.

(** C8 as stated fails on [GBAThreadIsActive]: called by the host on a
    running context, with [stateMutex] free, it returns [true] after two
    reads of the state, neither of them under the mutex, and it never
    takes the mutex. *)
Lemma IsActive_reads_without_lock :
  GBAThreadIsActive (alone Host 0)
    (fresh_world (started THREAD_RUNNING (mkGBASync 0 false 0 true false))) =
  Ok true
    (mkWorld (started THREAD_RUNNING (mkGBASync 0 false 0 true false)) no_locks
       [EvStateRead false; EvStateRead false] 0%nat) /\
  reads_guarded [EvStateRead false; EvStateRead false] = false.
Proof. split; reflexivity. Qed.

(** ** Interrupt and Continue *)

(** The outermost interrupt of an active context, served by the worker:
    one round of waiting is enough. *)
Lemma Interrupt_served (w : World) :
  locks w = no_locks ->
  interruptDepth (ctx w) = 0 ->
  is_active (state (ctx w)) = true ->
  state (ctx w) <> THREAD_INTERRUPTED ->
  thread (ctx w) = true ->
  gba (ctx w) <> None ->
  exists w',
    GBAThreadInterrupt (with_worker 1) w = Ok tt w' /\
    ctx w' = interrupted (ctx w) /\
    locks w' = no_locks.
Proof.
  intros Hl Hd Ha Hs Ht Hg. open_world w. inversion Hl; subst.
  destruct core as [[h e]|]; [ | now contradiction Hg ].
  destruct st; try discriminate Ha; try (now contradiction Hs);
    destruct wait; (eexists; split; [ cbv; reflexivity | split; reflexivity ]).
Qed.

(** A nested interrupt, or an interrupt of an inactive context: the depth
    goes up, nothing else happens. *)
Lemma Interrupt_nested (cfg : Setting) (w : World) :
  owner stateMutex (locks w) = None ->
  0 <= interruptDepth (ctx w) < CInt.INT_MAX ->
  1 <= interruptDepth (ctx w) \/ is_active (state (ctx w)) = false ->
  exists reads,
    GBAThreadInterrupt cfg w =
    Ok tt (mkWorld (set_interruptDepth (interruptDepth (ctx w) + 1) (ctx w)) (locks w)
             (EvUnlock stateMutex :: reads ++ EvLock stateMutex :: trace w)
             (clock w)) /\
    Forall (eq (EvStateRead true)) reads.
Proof.
  intros Hfree Hd Hcase. open_world w. subst.
  unfold GBAThreadInterrupt, GBAThreadIsActive. mrun.
  rewrite incr_in_range by (unfold CInt.INT_MIN; lia).
  destruct (Z.ltb_spec 1 (depth + 1)) as [Hlt|Hge]; mrun.
  - exists []. split; [ reflexivity | constructor ].
  - destruct Hcase as [Hc|Hc]; [ lia | ].
    unfold is_active in Hc.
    destruct (state_leb THREAD_RUNNING st); mrun.
    + cbn in Hc. rewrite Hc. mrun.
      exists [EvStateRead true; EvStateRead true].
      split; [ reflexivity | repeat constructor ].
    + exists [EvStateRead true]. split; [ reflexivity | repeat constructor ].
Qed.

(** [GBAThreadContinue] on a free [stateMutex]. *)
Lemma Continue_run (cfg : Setting) (w : World) :
  owner stateMutex (locks w) = None ->
  CInt.INT_MIN < interruptDepth (ctx w) <= CInt.INT_MAX ->
  exists reads,
    GBAThreadContinue cfg w =
    Ok tt (mkWorld (continued (ctx w)) (locks w)
             (EvUnlock stateMutex ::
              (if (interruptDepth (ctx w) - 1 <? 1) && is_active (state (ctx w))
               then [EvWake stateCond; EvStateWrite true]
               else []) ++ reads ++ EvLock stateMutex :: trace w)
             (clock w)) /\
    Forall (eq (EvStateRead true)) reads.
Proof.
  intros Hfree Hd. open_world w. subst.
  unfold GBAThreadContinue, GBAThreadIsActive, continued, is_active. mrun.
  rewrite decr_in_range by exact Hd.
  destruct (depth - 1 <? 1); mrun.
  - destruct (state_leb THREAD_RUNNING st); mrun.
    + destruct (state_ltb st THREAD_EXITING); mrun;
        (exists [EvStateRead true; EvStateRead true];
         split; [ reflexivity | repeat constructor ]).
    + exists [EvStateRead true]. split; [ reflexivity | repeat constructor ].
  - exists []. split; [ reflexivity | constructor ].
Qed.

(** The outermost interrupt of an active context up to the write of
    [savedState]. *)
Lemma Interrupt_outermost_unfold (cfg : Setting) (w : World) :
  owner stateMutex (locks w) = None ->
  interruptDepth (ctx w) = 0 ->
  is_active (state (ctx w)) = true ->
  GBAThreadInterrupt cfg w =
  Interrupt_flip cfg
    (mkWorld (set_savedState (state (ctx w)) (set_interruptDepth 1 (ctx w)))
       (set_owner stateMutex (Some (caller cfg)) (locks w))
       (EvStateRead true :: EvStateRead true :: EvStateRead true ::
        EvLock stateMutex :: trace w)
       (clock w)).
Proof.
  intros Hfree Hd Ha. open_world w. subst.
  unfold is_active in Ha. apply andb_prop in Ha. destruct Ha as [Ha1 Ha2].
  unfold GBAThreadInterrupt, GBAThreadIsActive, Interrupt_flip. mrun.
  change (CInt.incr 0) with 1. change (1 <? 1) with false. mrun.
  rewrite Ha1. mrun. rewrite Ha2. mrun. reflexivity.
Qed.

Lemma same_interrupt_fields_refl (w : World) : same_interrupt_fields w w.
Proof. now split. Qed.

Lemma same_interrupt_fields_trans (a b c : World) :
  same_interrupt_fields a b -> same_interrupt_fields b c -> same_interrupt_fields a c.
Proof. intros [H1 H2] [H3 H4]. split; congruence. Qed.

(** What a returned primitive leaves behind. *)
Lemma MutexLock_inv (m : Mutex) (cfg : Setting) (w w' : World) :
  MutexLock m cfg w = Ok tt w' ->
  w' = set_locks (set_owner m (Some (caller cfg)) (locks w)) (log (EvLock m) w).
Proof.
  unfold MutexLock. destruct (owner m (locks w)) as [t|].
  - destruct (ThreadId_eqb t (caller cfg)); discriminate.
  - intro H. now inversion H.
Qed.

Lemma MutexUnlock_inv (m : Mutex) (cfg : Setting) (w w' : World) :
  MutexUnlock m cfg w = Ok tt w' ->
  w' = set_locks (set_owner m None (locks w)) (log (EvUnlock m) w).
Proof.
  unfold MutexUnlock. destruct (holds (caller cfg) m (locks w)); [ | discriminate ].
  intro H. now inversion H.
Qed.

(** Takes a hypothesis [(a ;; b ;; ...) cfg w = Ok x w'] apart, one bind
    at a time, as far as asked. *)
Ltac bind_inv H :=
  let a := fresh "a" in
  let w1 := fresh "w" in
  let H1 := fresh "Hrun" in
  apply bind_Ok in H; destruct H as (a & w1 & H1 & H);
  match type of a with
  | unit => destruct a
  | _ => idtac
  end.

(** [_waitUntilNotState] returns with the state away from [oldState]. *)
Lemma waitUntilNotState_exit (oldState : ThreadState) (cfg : Setting) (w w' : World) :
  _waitUntilNotState oldState cfg w = Ok tt w' ->
  state (ctx w') <> oldState.
Proof.
  intro H. unfold _waitUntilNotState in H.
  do 5 bind_inv H.
  unfold while_ in Hrun3. apply while_upto_exit in Hrun3. destruct Hrun3 as [v Hv].
  unfold state_is, bind, read_state, ret in Hv. inversion Hv as [[Hs Hw]].
  apply state_eqb_neq in Hs.
  do 2 bind_inv H.
  apply MutexLock_inv in Hrun3. apply MutexUnlock_inv in H.
  unfold modify in Hrun4. inversion Hrun4. subst. exact Hs.
Qed.

(** With the other threads leaving [savedState] and [interruptDepth]
    alone, so does the state flip of an interrupt. *)
Lemma Interrupt_flip_frame (cfg : Setting) :
  keeps_interrupt_fields cfg ->
  steps same_interrupt_fields cfg Interrupt_flip.
Proof.
  intro Hkeep.
  unfold Interrupt_flip, _waitOnInterrupt, _waitUntilNotState, state_is, core_store,
    ConditionWake.
  steps_split same_interrupt_fields_refl same_interrupt_fields_trans.
  all: intro w0;
    unfold MutexLock, MutexUnlock, ConditionWait, read_state, write_state, emit,
      modify, give_way;
    repeat match goal with
           | |- context [match ?x with _ => _ end] => destruct x
           end;
    cbn [final ctx set_ctx log set_locks];
    first [ apply same_interrupt_fields_refl
          | apply Hkeep
          | split; reflexivity ].
Qed.

Lemma grows_waitUntilNotState (oldState : ThreadState) (cfg : Setting) :
  steps grows cfg (_waitUntilNotState oldState).
Proof.
  pose proof (grows_prim cfg) as (He & Hm & Hr & Hw & Hg & Hl & Hu & Hi & Hcw & Hct).
  unfold _waitUntilNotState, state_is, ConditionWake.
  steps_split grows_refl grows_trans; auto.
Qed.

(** The state flip of an interrupt, when it returns: [savedState] and
    [interruptDepth] are as it found them, the state has left
    INTERRUPTING, and the log shows the write of INTERRUPTING under the
    mutex followed by the wake-up of [stateCond]. *)
Lemma Interrupt_flip_returns (cfg : Setting) (w w' : World) :
  keeps_interrupt_fields cfg ->
  holds (caller cfg) stateMutex (locks w) = true ->
  Interrupt_flip cfg w = Ok tt w' ->
  same_interrupt_fields w w' /\
  state (ctx w') <> THREAD_INTERRUPTING /\
  exists e1 e2,
    trace w' = e2 ++ EvWake stateCond :: EvStateWrite true :: e1 ++ trace w.
Proof.
  intros Hkeep Hheld H.
  split.
  { pose proof (Interrupt_flip_frame cfg Hkeep w) as Hf. now rewrite H in Hf. }
  unfold Interrupt_flip in H. do 5 bind_inv H.
  apply waitOnInterrupt_exit in Hrun. destruct Hrun as [_ [Hl (e1 & Ht1 & _)]].
  unfold write_state in Hrun0. inversion Hrun0 as [Hw0]. clear Hrun0.
  assert (Ht2 : trace w2 = trace w1).
  { unfold core_store, bind, get in Hrun1. destruct (gba (ctx w1));
      [ unfold modify in Hrun1; now inversion Hrun1 | discriminate Hrun1 ]. }
  unfold ConditionWake, emit in Hrun2. inversion Hrun2 as [Hw3]. clear Hrun2.
  pose proof (waitUntilNotState_exit _ _ _ _ Hrun3) as Hst.
  pose proof (grows_waitUntilNotState THREAD_INTERRUPTING cfg w3) as [e2 Ht4].
  rewrite Hrun3 in Ht4. cbn [final] in Ht4.
  apply MutexUnlock_inv in H. subst w'. cbn [ctx set_locks log trace].
  split; [ exact Hst | ].
  exists e1, (EvUnlock stateMutex :: e2).
  rewrite Ht4. subst w3. cbn [trace log]. rewrite Ht2. subst w1.
  cbn [trace log set_ctx locks]. rewrite Hl, Hheld, Ht1. reflexivity.
Qed.

(** One more interrupt. *)
Lemma interrupts_open_Interrupt (s0 : ThreadState) (d : nat) (w : World) :
  s0 <> THREAD_INTERRUPTED ->
  Z.of_nat d < CInt.INT_MAX ->
  interrupts_open s0 d w ->
  exists w',
    GBAThreadInterrupt (with_worker 1) w = Ok tt w' /\ interrupts_open s0 (S d) w'.
Proof.
  intros Hs0 Hd (Hl & Hdepth & Hin & Hact).
  destruct (is_active s0) eqn:Ha.
  - destruct (Hact eq_refl) as (Ht & Hg & Hst). destruct d as [|d].
    + destruct (Interrupt_served w Hl Hdepth) as (w' & Hrun & Hc & Hl');
        try assumption; try (now rewrite Hst).
      exists w'. split; [ exact Hrun | ]. clear Hrun.
      unfold interrupts_open. rewrite Hc, Hl'. cbn.
      repeat split; try congruence.
      destruct (gba (ctx w)); [ discriminate | now contradiction Hg ].
    + destruct (Interrupt_nested (with_worker 1) w) as (reads & Hrun & _).
      * now rewrite Hl.
      * rewrite Hdepth. lia.
      * left. rewrite Hdepth. lia.
      * eexists. split; [ exact Hrun | ]. clear Hrun.
        unfold interrupts_open. cbn [ctx locks].
        split; [ exact Hl | ]. split; [ cbn; rewrite Hdepth; lia | ].
        split; [ congruence | ]. intros _. destruct Hst as [Hst Hsaved].
        repeat split; assumption.
  - specialize (Hin eq_refl).
    destruct (Interrupt_nested (with_worker 1) w) as (reads & Hrun & _).
    + now rewrite Hl.
    + rewrite Hdepth. lia.
    + right. now rewrite Hin.
    + eexists. split; [ exact Hrun | ]. clear Hrun.
      unfold interrupts_open. cbn [ctx locks].
      split; [ exact Hl | ]. split; [ cbn; rewrite Hdepth; lia | ].
      split; [ intros _; exact Hin | congruence ].
Qed.

(** One interrupt closed. *)
Lemma interrupts_open_Continue (s0 : ThreadState) (d : nat) (w : World) :
  Z.of_nat (S d) <= CInt.INT_MAX ->
  interrupts_open s0 (S d) w ->
  exists w',
    GBAThreadContinue (with_worker 1) w = Ok tt w' /\ interrupts_open s0 d w'.
Proof.
  intros Hd (Hl & Hdepth & Hin & Hact).
  destruct (Continue_run (with_worker 1) w) as (reads & Hrun & _).
  - now rewrite Hl.
  - rewrite Hdepth. unfold CInt.INT_MIN. lia.
  - eexists. split; [ exact Hrun | ]. clear Hrun.
    unfold interrupts_open, continued. cbn [ctx locks].
    replace (interruptDepth (ctx w) - 1) with (Z.of_nat d) by lia.
    split; [ exact Hl | ].
    destruct (is_active s0) eqn:Ha.
    + destruct (Hact eq_refl) as (Ht & Hg & Hst & Hsaved).
      rewrite Hst. change (is_active THREAD_INTERRUPTED) with true.
      destruct d as [|d].
      * cbn. repeat split; try congruence.
      * replace (Z.of_nat (S d) <? 1) with false by (symmetry; apply Z.ltb_ge; lia).
        cbn. repeat split; try congruence; try lia.
    + rewrite (Hin eq_refl), Ha, andb_false_r. cbn.
      repeat split; try congruence. intros _. now apply Hin.
Qed.

(** A balanced sequence closes every interrupt it opens. *)
Lemma run_calls_balanced (s0 : ThreadState) (l : list Call) :
  s0 <> THREAD_INTERRUPTED ->
  forall (d : nat) (w : World),
    balanced_from d l = true ->
    Z.of_nat d + Z.of_nat (List.length l) <= CInt.INT_MAX ->
    interrupts_open s0 d w ->
    exists w', run_calls l (with_worker 1) w = Ok tt w' /\ interrupts_open s0 0 w'.
Proof.
  intro Hs0. induction l as [|c l IH]; intros d w Hbal Hlen Hopen.
  - cbn in Hbal. apply Nat.eqb_eq in Hbal. subst d. now exists w.
  - cbn [List.length] in Hlen. destruct c; cbn [balanced_from] in Hbal.
    + destruct (interrupts_open_Interrupt s0 d w Hs0) as (w1 & Hrun & Hopen1);
        [ lia | exact Hopen | ].
      destruct (IH (S d) w1 Hbal) as (w' & Hrest & Hopen'); [ lia | exact Hopen1 | ].
      exists w'. cbn [run_calls call]. unfold bind. rewrite Hrun. now split.
    + destruct d as [|d]; [ discriminate Hbal | ].
      destruct (interrupts_open_Continue s0 d w) as (w1 & Hrun & Hopen1);
        [ lia | exact Hopen | ].
      destruct (IH d w1 Hbal) as (w' & Hrest & Hopen'); [ lia | exact Hopen1 | ].
      exists w'. cbn [run_calls call]. unfold bind. rewrite Hrun. now split.
Qed.

(** C1.  [GBAThreadInterrupt] always increments [interruptDepth].  When
    the depth was already positive or the context is not active, that is
    all it does: it returns at once, with [state], [savedState] and the
    rest of the memory untouched, nothing woken and nothing waited for.
    When the new depth is 1 and the context is active it saves the state
    it found in [savedState], writes INTERRUPTING under the mutex, wakes
    [stateCond], and returns only once the state has left INTERRUPTING
    (whatever the other threads do, as long as they leave [savedState] and
    [interruptDepth] alone); with the worker as the other thread it does
    return, leaving the worker parked in INTERRUPTED.
    [GBAThreadContinue] always decrements [interruptDepth]; it writes
    [savedState] back into [state] and wakes [stateCond] exactly when the
    depth has fallen below 1 on an active context, which for a depth that
    was at least 1 means: has reached zero.  Hence every balanced sequence
    of Interrupt/Continue calls, started at depth 0 outside an interrupt,
    returns with [interruptDepth] 0 and [state] as it was before. *)
Theorem interrupt_continue_reentrancy :
  (forall cfg w,
     owner stateMutex (locks w) = None ->
     0 <= interruptDepth (ctx w) < CInt.INT_MAX ->
     1 <= interruptDepth (ctx w) \/ is_active (state (ctx w)) = false ->
     exists reads,
       GBAThreadInterrupt cfg w =
       Ok tt (mkWorld (set_interruptDepth (interruptDepth (ctx w) + 1) (ctx w)) (locks w)
                (EvUnlock stateMutex :: reads ++ EvLock stateMutex :: trace w)
                (clock w)) /\
       Forall (eq (EvStateRead true)) reads) /\
  (forall cfg w w',
     owner stateMutex (locks w) = None ->
     interruptDepth (ctx w) = 0 ->
     is_active (state (ctx w)) = true ->
     keeps_interrupt_fields cfg ->
     GBAThreadInterrupt cfg w = Ok tt w' ->
     interruptDepth (ctx w') = 1 /\
     savedState (ctx w') = state (ctx w) /\
     state (ctx w') <> THREAD_INTERRUPTING /\
     exists e1 e2,
       trace w' = e2 ++ EvWake stateCond :: EvStateWrite true :: e1 ++ trace w) /\
  (forall w,
     locks w = no_locks ->
     interruptDepth (ctx w) = 0 ->
     is_active (state (ctx w)) = true ->
     state (ctx w) <> THREAD_INTERRUPTED ->
     thread (ctx w) = true ->
     gba (ctx w) <> None ->
     exists w',
       GBAThreadInterrupt (with_worker 1) w = Ok tt w' /\
       ctx w' = interrupted (ctx w) /\
       locks w' = no_locks) /\
  (forall cfg w,
     owner stateMutex (locks w) = None ->
     CInt.INT_MIN < interruptDepth (ctx w) <= CInt.INT_MAX ->
     exists reads,
       GBAThreadContinue cfg w =
       Ok tt (mkWorld (continued (ctx w)) (locks w)
                (EvUnlock stateMutex ::
                 (if (interruptDepth (ctx w) - 1 <? 1) && is_active (state (ctx w))
                  then [EvWake stateCond; EvStateWrite true]
                  else []) ++ reads ++ EvLock stateMutex :: trace w)
                (clock w)) /\
       Forall (eq (EvStateRead true)) reads) /\
  (forall c,
     interruptDepth (continued c) = interruptDepth c - 1 /\
     (1 <= interruptDepth c ->
      ((interruptDepth c - 1 <? 1) && is_active (state c) = true <->
       interruptDepth c - 1 = 0 /\ is_active (state c) = true)) /\
     ((interruptDepth c - 1 <? 1) && is_active (state c) = true ->
      state (continued c) = savedState c) /\
     ((interruptDepth c - 1 <? 1) && is_active (state c) = false ->
      state (continued c) = state c)) /\
  (forall l w,
     balanced l = true ->
     Z.of_nat (List.length l) <= CInt.INT_MAX ->
     locks w = no_locks ->
     interruptDepth (ctx w) = 0 ->
     state (ctx w) <> THREAD_INTERRUPTED ->
     well_started (ctx w) ->
     exists w',
       run_calls l (with_worker 1) w = Ok tt w' /\
       interruptDepth (ctx w') = 0 /\
       state (ctx w') = state (ctx w) /\
       locks w' = no_locks).
Proof.
  split; [ exact Interrupt_nested | ].
  split.
  { intros cfg w w' Hfree Hd Ha Hkeep Hrun.
    rewrite (Interrupt_outermost_unfold cfg w Hfree Hd Ha) in Hrun.
    apply (Interrupt_flip_returns cfg _ _ Hkeep) in Hrun;
      [ | cbn [locks]; apply holds_set_owner ].
    destruct Hrun as ([Hsaved Hdepth] & Hst & e1 & e2 & Ht).
    cbn [ctx trace] in *.
    split; [ exact Hdepth | ]. split; [ exact Hsaved | ]. split; [ exact Hst | ].
    exists (e1 ++ [EvStateRead true; EvStateRead true; EvStateRead true;
                   EvLock stateMutex]), e2.
    rewrite Ht, <- !app_assoc. reflexivity. }
  split; [ exact Interrupt_served | ].
  split; [ exact Continue_run | ].
  split.
  { intro c. unfold continued.
    destruct (interruptDepth c - 1 <? 1) eqn:Hlt; destruct (is_active (state c)) eqn:Ha;
      cbn; repeat split; try congruence; intros;
      try match goal with H : _ /\ _ |- _ => destruct H end; try congruence.
    - apply Z.ltb_lt in Hlt. lia.
    - apply Z.ltb_ge in Hlt. lia. }
  intros l w Hbal Hlen Hl Hd Hst Hws.
  destruct (run_calls_balanced (state (ctx w)) l Hst 0%nat w Hbal) as (w' & Hrun & Hopen).
  - cbn. lia.
  - split; [ exact Hl | ]. split; [ exact Hd | ]. split; [ reflexivity | ].
    intro Ha. destruct (Hws Ha) as [Ht Hg]. now repeat split.
  - destruct Hopen as (Hl' & Hd' & Hin & Hact).
    exists w'. split; [ exact Hrun | ]. split; [ exact Hd' | ]. split; [ | exact Hl' ].
    destruct (is_active (state (ctx w))) eqn:Ha;
      [ now destruct (Hact eq_refl) as (_ & _ & H) | now apply Hin ].
Qed.

(** The host interrupts a running worker twice and continues twice. *)
Lemma interrupt_continue_reentrancy_witness :
  exists w',
    run_calls [Interrupt; Interrupt; Continue; Continue] (with_worker 1)
      (fresh_world (started THREAD_RUNNING (mkGBASync 0 true 0 true true))) = Ok tt w' /\
    interruptDepth (ctx w') = 0 /\
    state (ctx w') = THREAD_RUNNING /\
    locks w' = no_locks.
Proof.
  apply (proj2 (proj2 (proj2 (proj2 (proj2 interrupt_continue_reentrancy))))
           [Interrupt; Interrupt; Continue; Continue]
           (fresh_world (started THREAD_RUNNING (mkGBASync 0 true 0 true true)))).
  - reflexivity.
  - cbn. unfold CInt.INT_MAX. lia.
  - reflexivity.
  - reflexivity.
  - discriminate.
  - intros _. split; [ reflexivity | discriminate ].
Defined.

(** ** Pause, Unpause, TogglePause and Reset *)

(** Evaluation through the loops whose test fails at once. *)
Ltac mloop := repeat progress (mrun; rewrite ?while_upto_eq).

(** Closes [exists w', Ok tt v = Ok tt w' /\ ...] on an evaluated run. *)
Ltac returned_with := eexists; split; [ reflexivity | repeat split ].

Lemma Pause_noop (cfg : Setting) (w : World) :
  owner stateMutex (locks w) = None ->
  owner videoFrameMutex (locks w) = None ->
  state (ctx w) <> THREAD_INTERRUPTED ->
  state (ctx w) <> THREAD_RUNNING ->
  exists w',
    GBAThreadPause cfg w = Ok tt w' /\
    ctx w' = on_sync (set_videoFrameOn true) (ctx w) /\
    locks w' = locks w /\ clock w' = clock w.
Proof.
  intros Hs Hv Hi Hr. apply state_eqb_neq in Hi, Hr. open_world w. subst.
  unfold GBAThreadPause, _waitOnInterrupt, _changeVideoSync. mloop.
  rewrite Hi. mloop. rewrite Hr. mloop.
  destruct on; mloop; returned_with.
Qed.

Lemma Unpause_noop (cfg : Setting) (w : World) :
  owner stateMutex (locks w) = None ->
  owner videoFrameMutex (locks w) = None ->
  state (ctx w) <> THREAD_INTERRUPTED ->
  state (ctx w) <> THREAD_PAUSED ->
  state (ctx w) <> THREAD_PAUSING ->
  exists w',
    GBAThreadUnpause cfg w = Ok tt w' /\
    ctx w' = on_sync (set_videoFrameOn true) (ctx w) /\
    locks w' = locks w /\ clock w' = clock w.
Proof.
  intros Hs Hv Hi Hp Hq. apply state_eqb_neq in Hi, Hp, Hq. open_world w. subst.
  unfold GBAThreadUnpause, _waitOnInterrupt, _changeVideoSync. mloop.
  rewrite Hi. mloop. rewrite Hp. mloop. rewrite Hq. mloop.
  destruct on; mloop; returned_with.
Qed.

Lemma TogglePause_noop (cfg : Setting) (w : World) :
  owner stateMutex (locks w) = None ->
  owner videoFrameMutex (locks w) = None ->
  state (ctx w) <> THREAD_INTERRUPTED ->
  state (ctx w) <> THREAD_PAUSED ->
  state (ctx w) <> THREAD_PAUSING ->
  state (ctx w) <> THREAD_RUNNING ->
  exists w',
    GBAThreadTogglePause cfg w = Ok tt w' /\
    ctx w' = on_sync (set_videoFrameOn true) (ctx w) /\
    locks w' = locks w /\ clock w' = clock w.
Proof.
  intros Hs Hv Hi Hp Hq Hr. apply state_eqb_neq in Hi, Hp, Hq, Hr.
  open_world w. subst.
  unfold GBAThreadTogglePause, _waitOnInterrupt, _changeVideoSync. mloop.
  rewrite Hi. mloop. rewrite Hp. mloop. rewrite Hq. mloop. rewrite Hr. mloop.
  destruct on; mloop; returned_with.
Qed.

(** [GBAThreadUnpause] of a paused or pausing context: no waiting. *)
Lemma Unpause_resumes (cfg : Setting) (w : World) :
  owner stateMutex (locks w) = None ->
  owner videoFrameMutex (locks w) = None ->
  state (ctx w) = THREAD_PAUSED \/ state (ctx w) = THREAD_PAUSING ->
  exists w',
    GBAThreadUnpause cfg w = Ok tt w' /\
    ctx w' = on_sync (set_videoFrameOn true) (set_state THREAD_RUNNING (ctx w)) /\
    locks w' = locks w /\ clock w' = clock w.
Proof.
  intros Hs Hv Hp. open_world w. subst.
  unfold GBAThreadUnpause, _waitOnInterrupt, _changeVideoSync.
  destruct Hp; subst; mloop; cbn; mloop; destruct on; mloop; returned_with.
Qed.

Lemma TogglePause_resumes (cfg : Setting) (w : World) :
  owner stateMutex (locks w) = None ->
  owner videoFrameMutex (locks w) = None ->
  state (ctx w) = THREAD_PAUSED \/ state (ctx w) = THREAD_PAUSING ->
  exists w',
    GBAThreadTogglePause cfg w = Ok tt w' /\
    ctx w' = on_sync (set_videoFrameOn true) (set_state THREAD_RUNNING (ctx w)) /\
    locks w' = locks w /\ clock w' = clock w.
Proof.
  intros Hs Hv Hp. open_world w. subst.
  unfold GBAThreadTogglePause, _waitOnInterrupt, _changeVideoSync.
  destruct Hp; subst; mloop; cbn; mloop; destruct on; mloop; returned_with.
Qed.

(** [GBAThreadPause] of a running context, served by the worker. *)
Lemma Pause_served (w : World) :
  locks w = no_locks ->
  state (ctx w) = THREAD_RUNNING ->
  thread (ctx w) = true ->
  exists w',
    GBAThreadPause (with_worker 1) w = Ok tt w' /\
    ctx w' = on_sync (set_videoFrameOn false) (set_state THREAD_PAUSED (ctx w)) /\
    locks w' = no_locks.
Proof.
  intros Hl Hs Ht. open_world w. inversion Hl; subst.
  destruct wait, on; (eexists; split; [ cbv; reflexivity | split; reflexivity ]).
Qed.

Lemma TogglePause_served (w : World) :
  locks w = no_locks ->
  state (ctx w) = THREAD_RUNNING ->
  thread (ctx w) = true ->
  exists w',
    GBAThreadTogglePause (with_worker 1) w = Ok tt w' /\
    ctx w' = on_sync (set_videoFrameOn false) (set_state THREAD_PAUSED (ctx w)) /\
    locks w' = no_locks.
Proof.
  intros Hl Hs Ht. open_world w. inversion Hl; subst.
  destruct wait, on; (eexists; split; [ cbv; reflexivity | split; reflexivity ]).
Qed.

(** [GBAThreadReset] asks nothing of the state it finds. *)
Lemma Reset_run (cfg : Setting) (w : World) :
  owner stateMutex (locks w) = None ->
  state (ctx w) <> THREAD_INTERRUPTED ->
  exists w',
    GBAThreadReset cfg w = Ok tt w' /\
    ctx w' = set_state THREAD_RESETING (ctx w) /\
    locks w' = locks w /\ clock w' = clock w.
Proof.
  intros Hs Hi. apply state_eqb_neq in Hi. open_world w. subst.
  unfold GBAThreadReset, _waitOnInterrupt. mloop. rewrite Hi. mloop.
  returned_with.
Qed.

(** Whenever [GBAThreadReset] returns, it has set RESETING: its last
    steps are the write, the wake-up and the unlock, with no wait in
    between. *)
Lemma Reset_returns (cfg : Setting) (w w' : World) :
  GBAThreadReset cfg w = Ok tt w' -> state (ctx w') = THREAD_RESETING.
Proof.
  intro H. unfold GBAThreadReset in H. do 4 bind_inv H.
  apply MutexUnlock_inv in H.
  unfold ConditionWake, emit in Hrun2. unfold write_state in Hrun1.
  inversion Hrun2. inversion Hrun1. subst. reflexivity.
Qed.

(** [GBAThreadReset] of an interrupted context waits; once the holder of
    the only open interrupt calls [GBAThreadContinue], it goes on. *)
Lemma Reset_after_Continue (w : World) :
  locks w = no_locks ->
  state (ctx w) = THREAD_INTERRUPTED ->
  interruptDepth (ctx w) = 1 ->
  savedState (ctx w) <> THREAD_INTERRUPTED ->
  exists w',
    GBAThreadReset (with_interrupter 1) w = Ok tt w' /\
    ctx w' = set_state THREAD_RESETING (continued (ctx w)) /\
    locks w' = no_locks /\
    clock w' = S (clock w).
Proof.
  intros Hl Hst Hd Hs. apply state_eqb_neq in Hs.
  open_world w. inversion Hl; subst.
  unfold GBAThreadReset, _waitOnInterrupt, with_interrupter, continued, no_locks.
  mloop.
  cbn [state_eqb state_rank Z.eqb Pos.eqb is_active state_leb state_ltb Z.leb Z.ltb
       Z.compare Pos.compare Pos.compare_cont Z.sub Z.add Z.opp Z.pos_sub andb]. mloop.
  rewrite Hs. mloop.
  eexists. split; [ reflexivity | repeat split ].
Qed.

(** A nested interrupt, or an interrupt of an inactive context, at any
    depth short of overflow: only the depth moves. *)
Lemma Interrupt_skips (cfg : Setting) (w : World) :
  owner stateMutex (locks w) = None ->
  CInt.INT_MIN <= interruptDepth (ctx w) < CInt.INT_MAX ->
  1 <= interruptDepth (ctx w) \/ is_active (state (ctx w)) = false ->
  exists w',
    GBAThreadInterrupt cfg w = Ok tt w' /\
    ctx w' = set_interruptDepth (interruptDepth (ctx w) + 1) (ctx w) /\
    locks w' = locks w /\ clock w' = clock w.
Proof.
  intros Hfree Hd Hcase. open_world w. subst.
  unfold GBAThreadInterrupt, GBAThreadIsActive. mrun.
  rewrite incr_in_range by exact Hd.
  destruct (Z.ltb_spec 1 (depth + 1)) as [Hlt|Hge]; mrun.
  - returned_with.
  - destruct Hcase as [Hc|Hc]; [ lia | ].
    unfold is_active in Hc.
    destruct (state_leb THREAD_RUNNING st); mrun.
    + cbn in Hc. rewrite Hc. mrun. returned_with.
    + returned_with.
Qed.

(** C7 as the code has it.  With the worker as the other thread,
    [GBAThreadPause] twice on a running context leaves it PAUSED;
    [GBAThreadUnpause] twice on a paused or pausing context leaves it
    RUNNING.  Outside an interrupt (inside, they wait for it to end),
    [GBAThreadPause], [GBAThreadUnpause] and [GBAThreadTogglePause]
    return with the state unchanged when they do not find the state they
    act on (RUNNING; PAUSED or PAUSING; any of the three), and
    [GBAThreadTogglePause] does its work on the three.  A
    [GBAThreadInterrupt] that is nested or meets an inactive context
    leaves the state unchanged.  [GBAThreadContinue] leaves the state
    unchanged only when it leaves the depth positive or meets an inactive
    context; on an active context it otherwise sets the state to
    [savedState], also when no interrupt was open, so that a stray
    [GBAThreadContinue] is not a no-op.  [GBAThreadReset] tests nothing:
    whenever it returns, from whatever state, the state is RESETING; it
    returns at once outside an interrupt, and after the wait inside one. *)
Theorem pause_unpause_no_ops :
  (forall w,
     locks w = no_locks ->
     state (ctx w) = THREAD_RUNNING ->
     thread (ctx w) = true ->
     exists w1 w2,
       GBAThreadPause (with_worker 1) w = Ok tt w1 /\
       state (ctx w1) = THREAD_PAUSED /\
       GBAThreadPause (with_worker 1) w1 = Ok tt w2 /\
       state (ctx w2) = THREAD_PAUSED) /\
  (forall cfg w,
     owner stateMutex (locks w) = None ->
     owner videoFrameMutex (locks w) = None ->
     state (ctx w) = THREAD_PAUSED \/ state (ctx w) = THREAD_PAUSING ->
     exists w1 w2,
       GBAThreadUnpause cfg w = Ok tt w1 /\
       state (ctx w1) = THREAD_RUNNING /\
       GBAThreadUnpause cfg w1 = Ok tt w2 /\
       state (ctx w2) = THREAD_RUNNING) /\
  (forall cfg w,
     owner stateMutex (locks w) = None ->
     owner videoFrameMutex (locks w) = None ->
     state (ctx w) <> THREAD_INTERRUPTED ->
     (state (ctx w) <> THREAD_RUNNING ->
      exists w', GBAThreadPause cfg w = Ok tt w' /\ state (ctx w') = state (ctx w)) /\
     (state (ctx w) <> THREAD_PAUSED -> state (ctx w) <> THREAD_PAUSING ->
      exists w', GBAThreadUnpause cfg w = Ok tt w' /\ state (ctx w') = state (ctx w)) /\
     (state (ctx w) <> THREAD_PAUSED -> state (ctx w) <> THREAD_PAUSING ->
      state (ctx w) <> THREAD_RUNNING ->
      exists w', GBAThreadTogglePause cfg w = Ok tt w' /\
                 state (ctx w') = state (ctx w)) /\
     (state (ctx w) = THREAD_PAUSED \/ state (ctx w) = THREAD_PAUSING ->
      exists w', GBAThreadTogglePause cfg w = Ok tt w' /\
                 state (ctx w') = THREAD_RUNNING) /\
     (exists w', GBAThreadReset cfg w = Ok tt w' /\
                 state (ctx w') = THREAD_RESETING)) /\
  (forall w,
     locks w = no_locks ->
     state (ctx w) = THREAD_RUNNING ->
     thread (ctx w) = true ->
     exists w', GBAThreadTogglePause (with_worker 1) w = Ok tt w' /\
                state (ctx w') = THREAD_PAUSED) /\
  (forall cfg w,
     owner stateMutex (locks w) = None ->
     CInt.INT_MIN <= interruptDepth (ctx w) < CInt.INT_MAX ->
     1 <= interruptDepth (ctx w) \/ is_active (state (ctx w)) = false ->
     exists w', GBAThreadInterrupt cfg w = Ok tt w' /\ state (ctx w') = state (ctx w)) /\
  (forall cfg w,
     owner stateMutex (locks w) = None ->
     CInt.INT_MIN < interruptDepth (ctx w) <= CInt.INT_MAX ->
     exists w',
       GBAThreadContinue cfg w = Ok tt w' /\
       interruptDepth (ctx w') = interruptDepth (ctx w) - 1 /\
       (1 <= interruptDepth (ctx w) - 1 \/ is_active (state (ctx w)) = false ->
        state (ctx w') = state (ctx w)) /\
       (interruptDepth (ctx w) - 1 < 1 -> is_active (state (ctx w)) = true ->
        state (ctx w') = savedState (ctx w))) /\
  (forall cfg w w',
     GBAThreadReset cfg w = Ok tt w' -> state (ctx w') = THREAD_RESETING) /\
  (forall w,
     locks w = no_locks ->
     state (ctx w) = THREAD_INTERRUPTED ->
     interruptDepth (ctx w) = 1 ->
     savedState (ctx w) <> THREAD_INTERRUPTED ->
     exists w',
       GBAThreadReset (with_interrupter 1) w = Ok tt w' /\
       state (ctx w') = THREAD_RESETING /\
       clock w' = S (clock w)).
Proof.
  split.
  { intros w Hl Hs Ht.
    destruct (Pause_served w Hl Hs Ht) as (w1 & Hrun1 & Hc1 & Hl1).
    assert (Hs1 : state (ctx w1) = THREAD_PAUSED) by now rewrite Hc1.
    destruct (Pause_noop (with_worker 1) w1) as (w2 & Hrun2 & Hc2 & _);
      try (now rewrite Hl1); try (rewrite Hs1; discriminate).
    exists w1, w2. repeat split; try assumption. now rewrite Hc2. }
  split.
  { intros cfg w Hs Hv Hp.
    destruct (Unpause_resumes cfg w Hs Hv Hp) as (w1 & Hrun1 & Hc1 & Hl1 & _).
    assert (Hs1 : state (ctx w1) = THREAD_RUNNING) by now rewrite Hc1.
    destruct (Unpause_noop cfg w1) as (w2 & Hrun2 & Hc2 & _);
      try (now rewrite Hl1); try (rewrite Hs1; discriminate).
    exists w1, w2. repeat split; try assumption. now rewrite Hc2. }
  split.
  { intros cfg w Hs Hv Hi. repeat split.
    - intro Hr. destruct (Pause_noop cfg w Hs Hv Hi Hr) as (w' & Hrun & Hc & _).
      exists w'. split; [ exact Hrun | now rewrite Hc ].
    - intros Hp Hq. destruct (Unpause_noop cfg w Hs Hv Hi Hp Hq) as (w' & Hrun & Hc & _).
      exists w'. split; [ exact Hrun | now rewrite Hc ].
    - intros Hp Hq Hr.
      destruct (TogglePause_noop cfg w Hs Hv Hi Hp Hq Hr) as (w' & Hrun & Hc & _).
      exists w'. split; [ exact Hrun | now rewrite Hc ].
    - intro Hp. destruct (TogglePause_resumes cfg w Hs Hv Hp) as (w' & Hrun & Hc & _).
      exists w'. split; [ exact Hrun | now rewrite Hc ].
    - destruct (Reset_run cfg w Hs Hi) as (w' & Hrun & Hc & _).
      exists w'. split; [ exact Hrun | now rewrite Hc ]. }
  split.
  { intros w Hl Hs Ht.
    destruct (TogglePause_served w Hl Hs Ht) as (w' & Hrun & Hc & _).
    exists w'. split; [ exact Hrun | ]. clear Hrun. rewrite Hc. reflexivity. }
  split.
  { intros cfg w Hs Hd Hcase.
    destruct (Interrupt_skips cfg w Hs Hd Hcase) as (w' & Hrun & Hc & _).
    exists w'. split; [ exact Hrun | ]. clear Hrun. rewrite Hc. reflexivity. }
  split.
  { intros cfg w Hs Hd.
    destruct (Continue_run cfg w Hs Hd) as (reads & Hrun & _).
    eexists. split; [ exact Hrun | ]. clear Hrun.
    cbn [ctx]. unfold continued. split; [ | split ].
    - destruct ((interruptDepth (ctx w) - 1 <? 1) && is_active (state (ctx w)));
        reflexivity.
    - intro Hcase.
      replace ((interruptDepth (ctx w) - 1 <? 1) && is_active (state (ctx w)))
        with false; [ reflexivity | ].
      destruct Hcase as [H|H].
      + replace (interruptDepth (ctx w) - 1 <? 1) with false; [ reflexivity | ].
        symmetry. apply Z.ltb_ge. lia.
      + rewrite H, andb_false_r. reflexivity.
    - intros Hlt Hact. apply Z.ltb_lt in Hlt. rewrite Hlt, Hact. reflexivity. }
  split.
  { intros cfg w w' Hrun. exact (Reset_returns cfg w w' Hrun). }
  intros w Hl Hst Hd Hs.
  destruct (Reset_after_Continue w Hl Hst Hd Hs) as (w' & Hrun & Hc & _ & Hk).
  exists w'. split; [ exact Hrun | ]. clear Hrun.
  split; [ rewrite Hc; reflexivity | exact Hk ].
Qed.

(** The host pauses a running worker twice. *)
Lemma pause_unpause_no_ops_witness :
  exists w1 w2,
    GBAThreadPause (with_worker 1)
      (fresh_world (started THREAD_RUNNING (mkGBASync 0 true 0 true true))) = Ok tt w1 /\
    state (ctx w1) = THREAD_PAUSED /\
    GBAThreadPause (with_worker 1) w1 = Ok tt w2 /\
    state (ctx w2) = THREAD_PAUSED.
Proof.
  apply (proj1 pause_unpause_no_ops
           (fresh_world (started THREAD_RUNNING (mkGBASync 0 true 0 true true))));
    reflexivity.
Defined.

(** C7 as stated fails on [GBAThreadReset]: on a context that has shut
    down, which is not active, it does not leave the state unchanged but
    sets RESETING. *)
Lemma Reset_changes_an_inactive_state :
  is_active THREAD_SHUTDOWN = false /\
  exists w',
    GBAThreadReset (alone Host 0)
      (fresh_world (started THREAD_SHUTDOWN (mkGBASync 0 false 0 false false))) = Ok tt w' /\
    state (ctx w') = THREAD_RESETING /\
    state (ctx w') <> THREAD_SHUTDOWN.
Proof.
  split; [ reflexivity | ].
  eexists. split; [ reflexivity | ]. split; [ reflexivity | discriminate ].
Qed.

(** A [GBAThreadContinue] with no interrupt open is no no-op either: on a
    running context at depth 0, as [GBAThreadStart] leaves it, it moves
    the state to what [savedState] holds and the depth to -1. *)
Lemma Continue_with_no_interrupt_open :
  exists w',
    GBAThreadContinue (alone Host 0)
      (fresh_world (started THREAD_RUNNING (mkGBASync 0 true 0 true true))) = Ok tt w' /\
    state (ctx w') = THREAD_INITIALIZED /\
    interruptDepth (ctx w') = -1.
Proof.
  eexists. split; [ reflexivity | ]. split; reflexivity.
Qed.

(** ** Start *)

(** The directory scan: it returns, finds a ROM exactly when there was
    one already or an entry opens as one, and touches no thread, mutex or
    condition variable. *)
Lemma scan_dir_run (entries : list (option VFile)) (cfg : Setting) (w : World) :
  exists w' evs,
    scan_dir entries cfg w = Ok tt w' /\
    is_null (rom (ctx w')) = is_null (rom (ctx w)) && negb (existsb is_rom entries) /\
    thread (ctx w') = thread (ctx w) /\
    state (ctx w') = state (ctx w) /\
    locks w' = locks w /\
    clock w' = clock w /\
    trace w' = evs ++ trace w /\
    forallb (fun e => negb (is_setup e)) evs = true.
Proof.
  revert w. induction entries as [|e entries IH]; intro w.
  - exists w, []. cbn. rewrite andb_true_r. now repeat split.
  - assert (Hstep : exists w1 evs1,
              scan_entry e cfg w = Ok tt w1 /\
              is_null (rom (ctx w1)) = is_null (rom (ctx w)) && negb (is_rom e) /\
              thread (ctx w1) = thread (ctx w) /\
              state (ctx w1) = state (ctx w) /\
              locks w1 = locks w /\ clock w1 = clock w /\
              trace w1 = evs1 ++ trace w /\
              forallb (fun e => negb (is_setup e)) evs1 = true).
    { open_world w. destruct e as [vf|]; [ | exists
        (mkWorld (mkGBAThread st saved depth (mkGBASync pending wait skip on await)
                    core spawned rom_ bios_ save_ patch_ cheats_ gdir sdir fname_ movie_)
           (mkLocks so vo ao) tr k), []; cbn; rewrite andb_true_r; now repeat split ].
      unfold scan_entry. mrun.
      destruct rom_ as [r|]; [ | destruct (GBAIsROM vf) eqn:Hrom ];
        (destruct patch_ as [p|]; [ | destruct (loadPatch vf) eqn:Hpatch ]);
        cbn [is_rom]; rewrite ?Hrom; mrun; eexists;
        first [ exists [EvClose (file_handle vf)];
                split; [ reflexivity | cbn; repeat split; reflexivity ]
              | exists []; split; [ reflexivity | cbn; repeat split; reflexivity ] ]. }
    destruct Hstep as (w1 & evs1 & Hrun1 & Hn1 & Ht1 & Hs1 & Hl1 & Hk1 & Htr1 & Hf1).
    destruct (IH w1) as (w' & evs & Hrun & Hn & Ht & Hs & Hl & Hk & Htr & Hf).
    exists w', (evs ++ evs1). cbn [scan_dir]. unfold bind. rewrite Hrun1.
    split; [ exact Hrun | ].
    split; [ rewrite Hn, Hn1; cbn [existsb]; rewrite negb_orb; now rewrite andb_assoc | ].
    split; [ congruence | ]. split; [ congruence | ].
    split; [ congruence | ]. split; [ congruence | ].
    split; [ now rewrite Htr, Htr1, app_assoc | ].
    now rewrite forallb_app, Hf, Hf1.
Qed.

(** [GBAThreadStart] is the resolution of the ROM followed by the
    decision on it. *)
Lemma Start_splits (cfg : Setting) (w : World) :
  GBAThreadStart cfg w = (Start_resolve ;; Start_decide) cfg w.
Proof.
  open_world w. unfold GBAThreadStart, Start_resolve, Start_decide.
  destruct rom_ as [r|]; mrun; [ destruct (GBAIsROM r); mrun | ];
    (destruct gdir as [dir|]; mrun;
     [ match goal with
       | |- context [match scan_dir ?l cfg ?w0 with _ => _ end] =>
           destruct (scan_dir l cfg w0) as [[] w1|f w1]
       end | ]);
    reflexivity.
Qed.

(** The resolution returns, with a ROM handle exactly when one could be
    resolved. *)
Lemma Start_resolve_run (cfg : Setting) (w : World) :
  exists w1,
    Start_resolve cfg w = Ok tt w1 /\
    resolved w w1 /\
    state (ctx w1) = THREAD_INITIALIZED.
Proof.
  open_world w. unfold Start_resolve, resolved, rom_resolvable.
  destruct rom_ as [r|]; mrun; [ destruct (GBAIsROM r) eqn:Hr; mrun | ];
    (destruct gdir as [dir|]; mrun; cbn [is_rom]; rewrite ?Hr;
     [ match goal with
       | |- context [scan_dir ?l cfg ?w0] =>
           destruct (scan_dir_run l cfg w0)
             as (w1 & evs & Hrun & Hn & Ht & Hs & Hl & Hk & Htr & Hf);
           rewrite Hrun; exists w1;
           cbn [ctx rom thread state locks clock trace is_null] in Hn, Ht, Hs, Hl, Hk, Htr
       end
     | eexists ]).
  all: split; [ reflexivity | ].
  all: first
         [ (* after a directory scan *)
           split; [ | exact Hs ];
           split; [ exact Hn | ];
           split; [ exact Ht | ];
           split; [ exact Hl | ];
           split; [ exact Hk | ];
           match type of Htr with
           | _ = ?l ++ ?e1 :: ?e2 :: _ => exists (l ++ [e1; e2])
           | _ = ?l ++ ?e1 :: _ => exists (l ++ [e1])
           end;
           split; [ rewrite <- app_assoc; exact Htr | ];
           rewrite forallb_app; apply andb_true_intro; split; [ exact Hf | reflexivity ]
         | (* without a game directory *)
           split; [ | reflexivity ];
           do 4 (split; [ reflexivity | ]);
           cbv beta iota;
           match goal with
           | |- exists _, ?e1 :: ?e2 :: _ = _ /\ _ => exists [e1; e2]
           | |- exists _, ?e1 :: _ = _ /\ _ => exists [e1]
           end;
           split; reflexivity ].
Qed.

(** [GBAThreadStart] up to the test of [threadContext->rom]. *)
Lemma Start_resolves (cfg : Setting) (w : World) :
  exists w1,
    GBAThreadStart cfg w = Start_decide cfg w1 /\
    resolved w w1 /\
    state (ctx w1) = THREAD_INITIALIZED.
Proof.
  destruct (Start_resolve_run cfg w) as (w1 & Hrun & Hres & Hst).
  exists w1. rewrite Start_splits. unfold bind. rewrite Hrun. now split.
Qed.

(** No ROM: SHUTDOWN and [false], nothing set up. *)
Lemma Start_decide_fails (cfg : Setting) (w1 : World) :
  is_null (rom (ctx w1)) = true ->
  Start_decide cfg w1 =
  Ok false (mkWorld (set_state THREAD_SHUTDOWN (ctx w1)) (locks w1)
              (EvStateWrite (holds (caller cfg) stateMutex (locks w1)) :: trace w1)
              (clock w1)).
Proof.
  intro Hn. open_world w1. destruct rom_; [ discriminate Hn | ]. reflexivity.
Qed.

(** A ROM: the mutexes and condition variables are initialised, the
    worker is created under [stateMutex], and the wait begins. *)
Lemma Start_decide_launches (cfg : Setting) (w1 : World) :
  is_null (rom (ctx w1)) = false ->
  Start_decide cfg w1 =
  Start_wait cfg
    (mkWorld
       (set_thread true
          (set_interruptDepth 0
             (set_save (VDirOptionalOpenFile (fs cfg) (stateDir (ctx w1)) (fname (ctx w1)))
                (ctx w1))))
       (mkLocks (Some (caller cfg)) None None)
       (Start_setup_events ++ trace w1)
       (clock w1)).
Proof.
  intro Hn. open_world w1. destruct rom_; [ | discriminate Hn ]. reflexivity.
Qed.

(** A loop that sleeps on [stateCond] until a test on the state fails
    only reads the state and sleeps. *)
Lemma state_wait_loop (p : ThreadState -> bool) (cfg : Setting) :
  steps (waited_on_state (caller cfg)) cfg
    (while_ (s <- read_state ;; ret (p s)) (ConditionWait stateCond stateMutex)).
Proof.
  steps_split (waited_on_state_refl (caller cfg)) (waited_on_state_trans (caller cfg)).
  - intro w. split; [ reflexivity | ].
    exists [EvStateRead (holds (caller cfg) stateMutex (locks w))].
    split; [ reflexivity | ]. constructor; [ now left | constructor ].
  - intro w. unfold ConditionWait.
    destruct (holds (caller cfg) stateMutex (locks w));
      [ | apply waited_on_state_refl ].
    split; [ reflexivity | ].
    exists [EvWait stateCond stateMutex].
    split; [ reflexivity | ]. constructor; [ now right | constructor ].
Qed.

(** When the wait of [GBAThreadStart] returns, it returns [true], the
    state is at least RUNNING, [stateMutex] is free again, and since the
    creation of the worker the host has only read the state under the
    mutex, slept on [stateCond] with it, and unlocked it. *)
Lemma Start_wait_returns (cfg : Setting) (w2 : World) (b : bool) (w' : World) :
  holds (caller cfg) stateMutex (locks w2) = true ->
  Start_wait cfg w2 = Ok b w' ->
  b = true /\
  state_ltb (state (ctx w')) THREAD_RUNNING = false /\
  owner stateMutex (locks w') = None /\
  exists evs,
    trace w' = EvUnlock stateMutex :: evs ++ trace w2 /\
    Forall (fun e => e = EvStateRead true \/ e = EvWait stateCond stateMutex) evs.
Proof.
  intros Hheld H. unfold Start_wait in H. do 2 bind_inv H.
  pose proof (state_wait_loop (fun s => state_ltb s THREAD_RUNNING) cfg w2) as Hw.
  cbv beta in Hw. rewrite Hrun in Hw. cbn [final] in Hw. destruct Hw as [Hl (evs & Ht & Hf)].
  rewrite Hheld in Hf.
  unfold while_ in Hrun. apply while_upto_exit in Hrun. destruct Hrun as [v Hv].
  unfold bind, read_state, ret in Hv.
  injection Hv as Hs Hv.
  apply MutexUnlock_inv in Hrun0. unfold ret in H. injection H as Hb H. subst.
  cbn [ctx set_locks log locks trace].
  split; [ reflexivity | ]. split; [ exact Hs | ].
  split; [ apply owner_set_owner | ].
  exists evs. cbn [trace log] in Ht. now rewrite Ht.
Qed.

(** The worker publishes RUNNING the first time the host sleeps. *)
Lemma Start_wait_served (w2 : World) :
  state (ctx w2) = THREAD_INITIALIZED ->
  thread (ctx w2) = true ->
  locks w2 = mkLocks (Some Host) None None ->
  exists w',
    Start_wait (with_worker 1) w2 = Ok true w' /\
    state (ctx w') = THREAD_RUNNING /\
    locks w' = no_locks.
Proof.
  intros Hs Ht Hl. open_world w2. inversion Hl; subst.
  eexists. split; [ cbv; reflexivity | split; reflexivity ].
Qed.

(** C5.  If no ROM can be resolved (the handle given is missing or is
    not a ROM, and no entry of the game directory opens as one),
    [GBAThreadStart] returns [false] with the state set to SHUTDOWN, no
    worker created and no mutex or condition variable initialised.  When
    it returns [true], a ROM was resolved, and its log ends with the
    initialisations, the lock of [stateMutex], the creation of the worker,
    reads of the state and sleeps on [stateCond] under that mutex, and the
    unlock; the state it returns with is at least RUNNING, so that
    [GBAThreadHasStarted] answers [true].  With the worker as the other
    thread and a resolvable ROM it does return [true], in state RUNNING. *)
Theorem Start_config_error_or_running (cfg : Setting) (w : World) :
  (rom_resolvable (ctx w) = false ->
     exists w' evs,
       GBAThreadStart cfg w = Ok false w' /\
       state (ctx w') = THREAD_SHUTDOWN /\
       thread (ctx w') = thread (ctx w) /\
       locks w' = locks w /\
       clock w' = clock w /\
       trace w' = evs ++ trace w /\
       forallb (fun e => negb (is_setup e)) evs = true) /\
  (forall w',
     GBAThreadStart cfg w = Ok true w' ->
     rom_resolvable (ctx w) = true /\
     (exists waits before,
        trace w' =
          EvUnlock stateMutex :: waits ++ Start_setup_events ++ before ++ trace w /\
        Forall (fun e => e = EvStateRead true \/ e = EvWait stateCond stateMutex) waits /\
        forallb (fun e => negb (is_setup e)) before = true) /\
     state_rank THREAD_RUNNING <= state_rank (state (ctx w')) /\
     exists w'', GBAThreadHasStarted cfg w' = Ok true w'') /\
  (rom_resolvable (ctx w) = true ->
     exists w',
       GBAThreadStart (with_worker 1) w = Ok true w' /\
       state (ctx w') = THREAD_RUNNING).
Proof.
  split; [ | split ].
  - intro Hno.
    destruct (Start_resolves cfg w) as (w1 & Heq & (Hn & Ht & Hl & Hk & evs & Htr & Hf) & _).
    rewrite Hno in Hn. cbn [negb] in Hn.
    rewrite Heq, (Start_decide_fails cfg w1 Hn).
    eexists. exists (EvStateWrite (holds (caller cfg) stateMutex (locks w1)) :: evs).
    split; [ reflexivity | ]. cbn [ctx locks clock trace].
    clear Heq.
    repeat split; try assumption; try (rewrite Htr; reflexivity).
    all: cbn [forallb is_setup negb andb]; exact Hf.
  - intros w' H.
    destruct (Start_resolves cfg w) as (w1 & Heq & (Hn & Ht & Hl & Hk & evs & Htr & Hf) & _).
    rewrite Heq in H.
    destruct (is_null (rom (ctx w1))) eqn:Hnull.
    { rewrite (Start_decide_fails cfg w1 Hnull) in H. discriminate H. }
    rewrite (Start_decide_launches cfg w1 Hnull) in H.
    apply Start_wait_returns in H;
      [ | unfold holds; cbn [owner stateOwner]; apply ThreadId_eqb_refl ].
    destruct H as (_ & Hs & Hfree & waits & Htr' & Hw).
    cbn [trace] in Htr'.
    split; [ now destruct (rom_resolvable (ctx w)) | ].
    split.
    { exists waits, evs. rewrite Htr', Htr. now repeat split. }
    assert (Hrank : state_rank THREAD_RUNNING <= state_rank (state (ctx w'))).
    { unfold state_ltb in Hs. now apply Z.ltb_ge in Hs. }
    split; [ exact Hrank | ].
    eexists. unfold GBAThreadHasStarted.
    rewrite (locked_query cfg w' (state_ltb THREAD_INITIALIZED) Hfree).
    replace (state_ltb THREAD_INITIALIZED (state (ctx w'))) with true; [ reflexivity | ].
    symmetry. unfold state_ltb. apply Z.ltb_lt. cbn in Hrank |- *. lia.
  - intro Hyes.
    destruct (Start_resolves (with_worker 1) w)
      as (w1 & Heq & (Hn & Ht & Hl & Hk & evs & Htr & Hf) & Hst).
    rewrite Hyes in Hn. cbn [negb] in Hn.
    rewrite Heq, (Start_decide_launches (with_worker 1) w1 Hn).
    match goal with
    | |- context [Start_wait _ ?w2] =>
        destruct (Start_wait_served w2) as (w' & Hrun & Hs & _);
          [ exact Hst | reflexivity | reflexivity | ]
    end.
    exists w'. now split.
Qed.

(** The host starts a context whose game directory holds a patch, an
    entry that cannot be opened, and a ROM. *)
Lemma Start_config_error_or_running_witness :
  exists w',
    GBAThreadStart (with_worker 1)
      (fresh_world
         (mkGBAThread THREAD_INITIALIZED THREAD_INITIALIZED 0
            (mkGBASync 0 true 0 false true) None false
            None None None None None
            (Some (mkVDir 7 [Some (mkVFile 1 false true); None;
                             Some (mkVFile 2 true false)]))
            None None None)) = Ok true w' /\
    state (ctx w') = THREAD_RUNNING.
Proof.
  apply (proj2 (proj2 (Start_config_error_or_running (with_worker 1)
            (fresh_world
               (mkGBAThread THREAD_INITIALIZED THREAD_INITIALIZED 0
                  (mkGBASync 0 true 0 false true) None false
                  None None None None None
                  (Some (mkVDir 7 [Some (mkVFile 1 false true); None;
                                   Some (mkVFile 2 true false)]))
                  None None None))))).
  reflexivity.
Defined.

(** ** Join and the owned handles *)

(** C4 fails on the code: in a session that opens a game and a cheats
    file, starts, ends and joins, the ROM and the save file are closed
    once by [GBAThreadJoin] and their fields cleared, but the cheats file
    opened by [GBAMapArgumentsToContext] is never closed and its field is
    still set when [GBAThreadJoin] has returned. *)
Theorem Join_leaves_cheatsFile_open :
  exists w',
    session game_and_cheats
      (mkSetting Host 1 (fun _ => _GBAThreadRun) (fun _ => false) game_and_cheats_fs)
      (fresh_world blank) = Ok true w' /\
    state (ctx w') = THREAD_SHUTDOWN /\
    closed_handles (trace w') = [FileHandle 3; FileHandle 1] /\
    rom (ctx w') = None /\
    save (ctx w') = None /\
    cheatsFile (ctx w') = Some (mkVFile 2 false false) /\
    closes (FileHandle 2) (trace w') = 0%nat.
Proof.
  eexists. split; [ vm_compute; reflexivity | ].
  repeat split.
Qed.

(** ** Further properties of [thread.c] *)

(** Finds the events a run put on top of a log. *)
Lemma suffix_nil {A} (l : list A) : l = [] ++ l.
Proof. reflexivity. Qed.

Lemma suffix_cons {A} (x : A) (l evs tl : list A) :
  l = evs ++ tl -> x :: l = (x :: evs) ++ tl.
Proof. intro H. now rewrite H. Qed.

Ltac solve_suffix := repeat apply suffix_cons; apply suffix_nil.

(** *** Tear-down *)

(** On the context it finds once the worker has been joined,
    [GBAThreadJoin] closes the ROM, the save file, the BIOS, the patch,
    the game directory and the state directory that are set, in this
    order, the state directory only when it is not the very pointer of the
    game directory; it clears these six fields, leaves [cheatsFile] and
    the state as they are, and takes no lock. *)
Theorem Join_releases_the_six_handles (cfg : Setting) (w : World) :
  exists w' evs,
    GBAThreadJoin cfg w = Ok tt w' /\
    trace w' = evs ++ trace w /\
    closed_handles evs = rev (released_by_Join (others cfg (clock w) (ctx w))) /\
    rom (ctx w') = None /\ save (ctx w') = None /\ bios (ctx w') = None /\
    patch (ctx w') = None /\ gameDir (ctx w') = None /\ stateDir (ctx w') = None /\
    cheatsFile (ctx w') = cheatsFile (others cfg (clock w) (ctx w)) /\
    state (ctx w') = state (others cfg (clock w) (ctx w)) /\
    locks w' = locks w.
Proof.
  destruct cfg as [t n oth tout fsys]. destruct w as [c l tr k].
  unfold GBAThreadJoin, released_by_Join. mrun.
  destruct (oth k c) as [st saved depth sy core spawned rom_ bios_ save_ patch_ cheats_
                           gdir sdir fname_ movie_].
  destruct rom_, save_, bios_, patch_, gdir as [g|], sdir as [s|]; mrun;
    unfold VDir_ptr_eqb; try destruct (Nat.eqb (vd_id s) (vd_id g)); mrun;
    (eexists; eexists; split; [ reflexivity | ]; split; [ solve_suffix | ];
     repeat split).
Qed.

(** *** End *)

(** [GBAThreadEnd] outside an interrupt, with the three mutexes free. *)
Lemma End_run (cfg : Setting) (w : World) :
  locks w = no_locks ->
  state (ctx w) <> THREAD_INTERRUPTED ->
  GBAThreadEnd cfg w =
  Ok tt (mkWorld (ended (ctx w)) no_locks (rev End_events ++ trace w) (clock w)).
Proof.
  intros Hl Hi. apply state_eqb_neq in Hi. open_world w. inversion Hl; subst.
  unfold GBAThreadEnd, _waitOnInterrupt, ended. mloop. rewrite Hi. mloop.
  destruct core as [[h e]|]; mloop; reflexivity.
Qed.

(** After [GBAThreadEnd] nobody sleeps on the channel.  Outside an
    interrupt and with the mutexes free, [GBAThreadEnd] returns without
    sleeping, having woken the four condition variables, each under its
    own mutex and one mutex at a time; from then on [GBASyncPostFrame]
    returns without sleeping whatever the skip counter,
    [GBASyncProduceAudio] returns without sleeping even when asked to
    wait, and [GBASyncWaitFrameStart] returns without sleeping: [true] to
    drain frames that are pending, [false] otherwise. *)
Theorem End_cancels_every_wait (cfg : Setting) (w : World) :
  locks w = no_locks ->
  state (ctx w) <> THREAD_INTERRUPTED ->
  exists w',
    GBAThreadEnd cfg w = Ok tt w' /\
    ctx w' = ended (ctx w) /\
    locks w' = no_locks /\
    clock w' = clock w /\
    history w' = history w ++ End_events /\
    (forall cfg2, exists w2,
       GBASyncPostFrame ThreadSync cfg2 w' = Ok tt w2 /\ clock w2 = clock w') /\
    (forall cfg2 wait, exists w2,
       (GBASyncLockAudio ThreadSync ;; GBASyncProduceAudio ThreadSync wait) cfg2 w'
       = Ok tt w2 /\ clock w2 = clock w') /\
    (forall cfg2 frameskip, exists w2,
       GBASyncWaitFrameStart ThreadSync frameskip cfg2 w' =
       Ok (negb (videoFramePending (sync (ctx w)) =? 0)) w2 /\
       clock w2 = clock w').
Proof.
  intros Hl Hi. rewrite (End_run cfg w Hl Hi).
  eexists. split; [ reflexivity | ]. cbn [ctx locks clock].
  split; [ reflexivity | ]. split; [ reflexivity | ]. split; [ reflexivity | ].
  split.
  { unfold history. cbn [trace]. now rewrite rev_app_distr, rev_involutive. }
  split; [ | split ].
  - intro cfg2.
    match goal with
    | |- context [GBASyncPostFrame _ _ ?v] =>
        destruct (Z.ltb_spec (videoFrameSkip (sync (posted (ctx v)))) 0) as [Hlt|Hge];
          [ rewrite (PostFrame_signalled cfg2 v eq_refl Hlt eq_refl)
          | rewrite (PostFrame_skipped cfg2 v eq_refl Hge) ]
    end; eexists; split; reflexivity.
  - intros cfg2 wait. eexists.
    unfold GBASyncLockAudio, GBASyncProduceAudio, ended, no_locks.
    mrun. split; reflexivity.
  - intros cfg2 frameskip.
    match goal with
    | |- context [GBASyncWaitFrameStart _ _ _ ?v] =>
        rewrite (WaitFrameStart_cases cfg2 v frameskip eq_refl)
    end.
    cbn [ctx ended on_sync sync set_sync videoFrameOn set_videoFrameOn
         videoFramePending set_videoFrameWait set_audioWait set_gba set_state].
    destruct (videoFramePending (sync (ctx w)) =? 0); eexists; split; reflexivity.
Qed.

(** The host ends a running session while the producer waits for VSync. *)
Lemma End_cancels_every_wait_witness :
  exists w',
    GBAThreadEnd (alone Host 0)
      (fresh_world (started THREAD_RUNNING (mkGBASync 1 true (-1) true true))) = Ok tt w' /\
    videoFrameWait (sync (ctx w')) = false /\
    audioWait (sync (ctx w')) = false /\
    state (ctx w') = THREAD_EXITING.
Proof.
  destruct (End_cancels_every_wait (alone Host 0)
              (fresh_world (started THREAD_RUNNING (mkGBASync 1 true (-1) true true))))
    as (w' & Hrun & Hc & _).
  - reflexivity.
  - discriminate.
  - exists w'. split; [ exact Hrun | ]. rewrite Hc. repeat split.
Defined.

(** *** Suspending and resuming the video output *)

(** [_changeVideoSync] signals [videoFrameAvailableCond] on a transition
    of [videoFrameOn] and only then: on a free [videoFrameMutex] it sets
    the flag, under the mutex, and wakes the consumers exactly when the
    flag changes; asked twice for the same value it is silent the second
    time; and [GBASyncSuspendDrawing] followed by [GBASyncResumeDrawing]
    on an enabled channel gives the memory back as it was, with one signal
    for each of the two transitions. *)
Theorem changeVideoSync_signals_transitions (cfg : Setting) (w : World) (frameOn : bool) :
  owner videoFrameMutex (locks w) = None ->
  _changeVideoSync frameOn cfg w =
    Ok tt (mkWorld (on_sync (set_videoFrameOn frameOn) (ctx w)) (locks w)
             (EvUnlock videoFrameMutex ::
              (if Bool.eqb frameOn (videoFrameOn (sync (ctx w))) then []
               else [EvWake videoFrameAvailableCond]) ++
              EvLock videoFrameMutex :: trace w)
             (clock w)) /\
  (_changeVideoSync frameOn ;; _changeVideoSync frameOn) cfg w =
    Ok tt (mkWorld (on_sync (set_videoFrameOn frameOn) (ctx w)) (locks w)
             (EvUnlock videoFrameMutex :: EvLock videoFrameMutex ::
              EvUnlock videoFrameMutex ::
              (if Bool.eqb frameOn (videoFrameOn (sync (ctx w))) then []
               else [EvWake videoFrameAvailableCond]) ++
              EvLock videoFrameMutex :: trace w)
             (clock w)) /\
  (videoFrameOn (sync (ctx w)) = true ->
   (GBASyncSuspendDrawing ThreadSync ;; GBASyncResumeDrawing ThreadSync) cfg w =
     Ok tt (mkWorld (ctx w) (locks w)
              (EvUnlock videoFrameMutex :: EvWake videoFrameAvailableCond ::
               EvLock videoFrameMutex ::
               EvUnlock videoFrameMutex :: EvWake videoFrameAvailableCond ::
               EvLock videoFrameMutex :: trace w)
              (clock w))).
Proof.
  intro Hfree. open_world w. subst.
  unfold GBASyncSuspendDrawing, GBASyncResumeDrawing, _changeVideoSync.
  repeat split; [ | | intro Hon; subst on ]; mrun;
    try (destruct frameOn, on); mrun; reflexivity.
Qed.

(** The renderer suspends the drawing of a running channel. *)
Lemma changeVideoSync_signals_transitions_witness :
  GBASyncSuspendDrawing ThreadSync (alone Renderer 0)
    (fresh_world (started THREAD_RUNNING (mkGBASync 0 true 0 true true))) =
  Ok tt (mkWorld (started THREAD_RUNNING (mkGBASync 0 true 0 false true)) no_locks
           [EvUnlock videoFrameMutex; EvWake videoFrameAvailableCond;
            EvLock videoFrameMutex] 0%nat).
Proof.
  exact (proj1 (changeVideoSync_signals_transitions (alone Renderer 0)
                  (fresh_world (started THREAD_RUNNING (mkGBASync 0 true 0 true true)))
                  false eq_refl)).
Defined.

(** *** The rendezvous of producer and consumer *)




(** *** The audio channel *)

(** On a free [audioBufferMutex]: the producer's bracket
    [GBASyncLockAudio] ... [GBASyncProduceAudio] sleeps on
    [audioRequiredCond] when [audioWait] is set and it is asked to wait,
    and then exactly once: it returns on the first wake-up, whatever the
    other threads did or did not do meanwhile (the wait is not re-checked);
    otherwise it does not sleep.  The consumer's bracket
    [GBASyncLockAudio] ... [GBASyncConsumeAudio] signals
    [audioRequiredCond] under the mutex.  Each bracket gives the mutex
    back. *)
Theorem audio_brackets (cfg : Setting) (w : World) (wait_ : bool) :
  owner audioBufferMutex (locks w) = None ->
  (GBASyncLockAudio ThreadSync ;; GBASyncProduceAudio ThreadSync wait_) cfg w =
    Ok tt (if audioWait (sync (ctx w)) && wait_
           then mkWorld (others cfg (clock w) (ctx w)) (locks w)
                  (EvUnlock audioBufferMutex ::
                   EvWait audioRequiredCond audioBufferMutex ::
                   EvLock audioBufferMutex :: trace w)
                  (S (clock w))
           else mkWorld (ctx w) (locks w)
                  (EvUnlock audioBufferMutex :: EvLock audioBufferMutex :: trace w)
                  (clock w)) /\
  (GBASyncLockAudio ThreadSync ;; GBASyncConsumeAudio ThreadSync) cfg w =
    Ok tt (mkWorld (ctx w) (locks w)
             (EvUnlock audioBufferMutex :: EvWake audioRequiredCond ::
              EvLock audioBufferMutex :: trace w)
             (clock w)) /\
  (GBASyncLockAudio ThreadSync ;; GBASyncUnlockAudio ThreadSync) cfg w =
    Ok tt (mkWorld (ctx w) (locks w)
             (EvUnlock audioBufferMutex :: EvLock audioBufferMutex :: trace w)
             (clock w)).
Proof.
  intro Hfree. open_world w. subst.
  unfold GBASyncLockAudio, GBASyncProduceAudio, GBASyncConsumeAudio, GBASyncUnlockAudio.
  repeat split; mrun; try (destruct await, wait_); mrun; reflexivity.
Qed.

(** The producer sleeps once for the audio callback and returns on its
    first wake-up, the memory as it was. *)
Lemma audio_brackets_witness :
  returned ((GBASyncLockAudio ThreadSync ;; GBASyncProduceAudio ThreadSync true)
              (alone Worker 0)
              (fresh_world (started THREAD_RUNNING (mkGBASync 0 false 0 true true))))
  = true.
Proof.
  rewrite (proj1 (audio_brackets (alone Worker 0)
                    (fresh_world (started THREAD_RUNNING (mkGBASync 0 false 0 true true)))
                    true eq_refl)).
  reflexivity.
Defined.

(** *** Waiting with nobody to wait for *)

(** With nobody else running, a wait for the end of an interrupt never
    ends, and touches nothing. *)
Lemma waitOnInterrupt_alone (t : ThreadId) (n m : nat) (w : World) :
  owner stateMutex (locks w) = Some t ->
  state (ctx w) = THREAD_INTERRUPTED ->
  exists w',
    while_upto n (state_is THREAD_INTERRUPTED) (ConditionWait stateCond stateMutex)
      (alone t m) w = Err StillWaiting w' /\
    ctx w' = ctx w /\ locks w' = locks w.
Proof.
  revert w. induction n as [|n IH]; intros w Hown Hst;
    rewrite while_upto_eq; unfold bind at 1, state_is at 1, bind at 1, read_state at 1, ret at 1;
    rewrite Hst; cbn [state_eqb state_rank Z.eqb Pos.eqb].
  - eexists. split; [ reflexivity | split; reflexivity ].
  - unfold bind at 1, ConditionWait at 1. cbn [locks log alone caller].
    rewrite (proj2 (holds_owner _ _ _) Hown).
    unfold give_way. cbn [alone others ctx locks log trace clock].
    match goal with
    | |- context [while_upto n _ _ _ ?w1] =>
        destruct (IH w1) as (w' & Hrun & Hc & Hl); [ exact Hown | exact Hst | ]
    end.
    exists w'. split; [ exact Hrun | split; assumption ].
Qed.

(** With nobody else running, the rounds of [_waitUntilNotState] never
    end either. *)
Lemma waitUntilNotState_alone (oldState : ThreadState) (t : ThreadId) (n m : nat)
    (w : World) :
  locks w = mkLocks (Some t) None None ->
  state (ctx w) = oldState ->
  exists w',
    while_upto n (state_is oldState) waitUntilNotState_round (alone t m) w
    = Err StillWaiting w' /\
    ctx w' = ctx w /\ locks w' = locks w.
Proof.
  revert w. induction n as [|n IH]; intros w Hl Hst;
    rewrite while_upto_eq; unfold bind at 1, state_is at 1, bind at 1, read_state at 1, ret at 1;
    rewrite Hst; rewrite (proj2 (state_eqb_eq oldState oldState) eq_refl).
  - eexists. split; [ reflexivity | split; reflexivity ].
  - unfold bind at 1.
    assert (Hround : exists w1,
              waitUntilNotState_round (alone t m)
                (log (EvStateRead (holds (caller (alone t m)) stateMutex (locks w))) w)
              = Ok tt w1 /\ ctx w1 = ctx w /\ locks w1 = locks w).
    { destruct w as [c l tr k]. cbn [locks] in Hl. subst l.
      unfold waitUntilNotState_round. mrun.
      eexists. split; [ reflexivity | split; reflexivity ]. }
    destruct Hround as (w1 & Hround & Hc1 & Hl1). rewrite Hround.
    destruct (IH w1) as (w' & Hrun & Hc & Hl'); [ congruence | congruence | ].
    exists w'. split; [ exact Hrun | split; congruence ].
Qed.

(** Whatever follows it, a wait for the end of an interrupt that nobody
    ends never gets there. *)
Lemma waits_out_interrupt {A} (k : unit -> M A) (t : ThreadId) (n : nat) (w : World) :
  owner stateMutex (locks w) = None ->
  state (ctx w) = THREAD_INTERRUPTED ->
  exists w',
    (MutexLock stateMutex ;; x <- _waitOnInterrupt ;; k x) (alone t n) w
    = Err StillWaiting w' /\
    ctx w' = ctx w.
Proof.
  intros Hfree Hst. unfold bind at 1. rewrite (MutexLock_free _ _ _ Hfree).
  unfold bind at 1, _waitOnInterrupt, while_. cbn [fuel alone].
  match goal with
  | |- context [while_upto n _ _ _ ?w1] =>
      destruct (waitOnInterrupt_alone t n n w1) as (w' & Hrun & Hc & _);
        [ apply owner_set_owner | exact Hst | ]
  end.
  exists w'. rewrite Hrun. split; [ reflexivity | exact Hc ].
Qed.

(** While the worker is parked in INTERRUPTED, no other request gets
    through.  On a free [stateMutex], with nobody to end the interrupt,
    [GBAThreadEnd], [GBAThreadReset], [GBAThreadPause],
    [GBAThreadUnpause], [GBAThreadTogglePause],
    [GBAThreadPauseFromThread] and [GBAThreadIsPaused] are still waiting at
    every loop bound, and the memory is as they found it. *)
Theorem interrupt_is_waited_out (t : ThreadId) (n : nat) (w : World) :
  owner stateMutex (locks w) = None ->
  state (ctx w) = THREAD_INTERRUPTED ->
  (exists w', GBAThreadEnd (alone t n) w = Err StillWaiting w' /\ ctx w' = ctx w) /\
  (exists w', GBAThreadReset (alone t n) w = Err StillWaiting w' /\ ctx w' = ctx w) /\
  (exists w', GBAThreadPause (alone t n) w = Err StillWaiting w' /\ ctx w' = ctx w) /\
  (exists w', GBAThreadUnpause (alone t n) w = Err StillWaiting w' /\ ctx w' = ctx w) /\
  (exists w', GBAThreadTogglePause (alone t n) w = Err StillWaiting w' /\
              ctx w' = ctx w) /\
  (exists w', GBAThreadPauseFromThread (alone t n) w = Err StillWaiting w' /\
              ctx w' = ctx w) /\
  (exists w', GBAThreadIsPaused (alone t n) w = Err StillWaiting w' /\ ctx w' = ctx w).
Proof.
  intros Hfree Hst.
  repeat (split; [ apply (waits_out_interrupt _ t n w Hfree Hst) | ]).
  apply (waits_out_interrupt _ t n w Hfree Hst).
Qed.

(** The host asks to end the session while the worker is interrupted. *)
Lemma interrupt_is_waited_out_witness :
  exists w',
    GBAThreadEnd (alone Host 3)
      (fresh_world (started THREAD_INTERRUPTED (mkGBASync 0 true 0 true true)))
    = Err StillWaiting w' /\
    state (ctx w') = THREAD_INTERRUPTED.
Proof.
  destruct (interrupt_is_waited_out Host 3
              (fresh_world (started THREAD_INTERRUPTED (mkGBASync 0 true 0 true true)))
              eq_refl eq_refl)
    as ((w' & Hrun & Hc) & _).
  exists w'. split; [ exact Hrun | ]. rewrite Hc. reflexivity.
Defined.

(** Once the thread that holds the only open interrupt calls
    [GBAThreadContinue], a [GBAThreadEnd] that waits on it goes on after
    that one sleep: it finds the state the interrupt had saved, and ends
    the session from there. *)
Theorem End_goes_on_after_Continue (w : World) :
  locks w = no_locks ->
  state (ctx w) = THREAD_INTERRUPTED ->
  interruptDepth (ctx w) = 1 ->
  savedState (ctx w) <> THREAD_INTERRUPTED ->
  exists w',
    GBAThreadEnd (with_interrupter 1) w = Ok tt w' /\
    ctx w' = ended (continued (ctx w)) /\
    locks w' = no_locks /\
    clock w' = S (clock w).
Proof.
  intros Hl Hst Hd Hs. apply state_eqb_neq in Hs.
  open_world w. inversion Hl; subst.
  unfold GBAThreadEnd, _waitOnInterrupt, with_interrupter, ended, continued, no_locks.
  mloop.
  cbn [state_eqb state_rank Z.eqb Pos.eqb is_active state_leb state_ltb Z.leb Z.ltb
       Z.compare Pos.compare Pos.compare_cont Z.sub Z.add Z.opp Z.pos_sub andb]. mloop.
  rewrite Hs. mloop.
  destruct core as [[h e]|]; mloop;
    (eexists; split; [ reflexivity | repeat split ]).
Qed.

(** The host ends a session whose worker was running when it was
    interrupted. *)
Lemma End_goes_on_after_Continue_witness :
  exists w',
    GBAThreadEnd (with_interrupter 1)
      (fresh_world
         (set_interruptDepth 1
            (set_savedState THREAD_RUNNING
               (started THREAD_INTERRUPTED (mkGBASync 0 true 0 true true)))))
    = Ok tt w' /\
    state (ctx w') = THREAD_EXITING.
Proof.
  destruct (End_goes_on_after_Continue
              (fresh_world
                 (set_interruptDepth 1
                    (set_savedState THREAD_RUNNING
                       (started THREAD_INTERRUPTED (mkGBASync 0 true 0 true true)))))
              eq_refl eq_refl eq_refl)
    as (w' & Hrun & Hc & _).
  - discriminate.
  - exists w'. split; [ exact Hrun | ]. rewrite Hc. reflexivity.
Defined.
(** *** Pausing from the worker's own thread *)

(** [GBAThreadPauseFromThread] asks for the pause and leaves: on a
    running context with the mutexes free it returns, whoever the other
    threads are, without a sleep, with the state PAUSING and the video
    output off; PAUSED is set by the worker's next poll.
    [GBAThreadPause] on the same context waits for that poll: with nobody
    else running it is still waiting at every loop bound, the state
    PAUSING. *)
Theorem PauseFromThread_does_not_wait (cfg : Setting) (w : World) :
  locks w = no_locks ->
  state (ctx w) = THREAD_RUNNING ->
  (exists w',
     GBAThreadPauseFromThread cfg w = Ok tt w' /\
     ctx w' = on_sync (set_videoFrameOn false) (set_state THREAD_PAUSING (ctx w)) /\
     locks w' = no_locks /\
     clock w' = clock w /\
     state (worker_poll (ctx w')) = THREAD_PAUSED) /\
  (forall t n,
     exists w',
       GBAThreadPause (alone t n) w = Err StillWaiting w' /\
       state (ctx w') = THREAD_PAUSING).
Proof.
  intros Hl Hs. split.
  - open_world w. inversion Hl; subst.
    unfold GBAThreadPauseFromThread, _waitOnInterrupt, _pauseThread, _changeVideoSync,
      no_locks.
    repeat (mloop; cbn [state_eqb state_rank Z.eqb Pos.eqb negb]).
    destruct on; mloop; (eexists; split; [ reflexivity | repeat split ]).
  - intros t n. open_world w. inversion Hl; subst.
    unfold GBAThreadPause, _waitOnInterrupt, _pauseThread, _waitUntilNotState.
    set (loop := while_ (state_is THREAD_PAUSING) _).
    repeat (mloop; cbn [state_eqb state_rank Z.eqb Pos.eqb negb]).
    subst loop. unfold while_. cbn [fuel alone].
    match goal with
    | |- context [while_upto n _ _ _ ?w1] =>
        destruct (waitUntilNotState_alone THREAD_PAUSING t n n w1)
          as (w' & Hrun & Hc & _); [ reflexivity | reflexivity | ]
    end.
    unfold waitUntilNotState_round, alone in Hrun.
    exists w'.
    split; [ | change (state (ctx w') = THREAD_PAUSING); rewrite Hc; reflexivity ].
    rewrite Hrun. reflexivity.
Qed.

(** The worker pauses itself while it runs. *)
Lemma PauseFromThread_does_not_wait_witness :
  exists w',
    GBAThreadPauseFromThread (alone Worker 0)
      (fresh_world (started THREAD_RUNNING (mkGBASync 0 true 0 true true))) = Ok tt w' /\
    state (ctx w') = THREAD_PAUSING /\
    clock w' = 0%nat.
Proof.
  destruct (PauseFromThread_does_not_wait (alone Worker 0)
              (fresh_world (started THREAD_RUNNING (mkGBASync 0 true 0 true true)))
              eq_refl eq_refl)
    as ((w' & Hrun & Hc & _ & Hk & _) & _).
  exists w'. split; [ exact Hrun | ]. rewrite Hc, Hk. split; reflexivity.
Defined.

(** *** Pause and resume *)



(** *** The directory scan of [GBAThreadStart] *)

Lemma closes_app (h : Handle) (a b : list Event) :
  closes h (a ++ b) = (closes h a + closes h b)%nat.
Proof. unfold closes. now rewrite filter_app, length_app. Qed.

Lemma occurrences_app (h : Handle) (a b : list Handle) :
  occurrences h (a ++ b) = (occurrences h a + occurrences h b)%nat.
Proof. unfold occurrences. now rewrite filter_app, length_app. Qed.

(** A field that is set is not set again. *)
Lemma kept_twice (a b c : option VFile) :
  (is_null a = false -> b = a) ->
  (is_null b = false -> c = b) ->
  kept a c = kept a b ++ kept b c.
Proof.
  intros Hab Hbc. unfold kept.
  destruct a as [x|]; cbn [is_null] in *;
    [ rewrite (Hab eq_refl); reflexivity | ].
  destruct b as [y|]; cbn [is_null file_handles app] in *.
  - rewrite (Hbc eq_refl). reflexivity.
  - reflexivity.
Qed.

(** The scan loses no file and closes none that it keeps.  It always
    returns; a ROM or a patch that was set stays; and for every handle,
    the number of entries that opened it is the number of times the scan
    closed it, plus one if it became the ROM, plus one if it became the
    patch. *)
Theorem scan_dir_keeps_or_closes (entries : list (option VFile)) (cfg : Setting)
    (w : World) :
  exists w' evs,
    scan_dir entries cfg w = Ok tt w' /\
    trace w' = evs ++ trace w /\
    (is_null (rom (ctx w)) = false -> rom (ctx w') = rom (ctx w)) /\
    (is_null (patch (ctx w)) = false -> patch (ctx w') = patch (ctx w)) /\
    forall h,
      occurrences h (flat_map file_handles entries) =
      (closes h evs
       + occurrences h (kept (rom (ctx w)) (rom (ctx w')))
       + occurrences h (kept (patch (ctx w)) (patch (ctx w'))))%nat.
Proof.
  revert w. induction entries as [|e entries IH]; intro w.
  - exists w, []. cbn [scan_dir ret flat_map app]. repeat split.
    intro h. unfold kept. destruct (rom (ctx w)), (patch (ctx w)); reflexivity.
  - assert (Hstep : exists w1 evs1,
              scan_entry e cfg w = Ok tt w1 /\
              trace w1 = evs1 ++ trace w /\
              (is_null (rom (ctx w)) = false -> rom (ctx w1) = rom (ctx w)) /\
              (is_null (patch (ctx w)) = false -> patch (ctx w1) = patch (ctx w)) /\
              forall h,
                occurrences h (file_handles e) =
                (closes h evs1
                 + occurrences h (kept (rom (ctx w)) (rom (ctx w1)))
                 + occurrences h (kept (patch (ctx w)) (patch (ctx w1))))%nat).
    { open_world w. destruct e as [vf|].
      - unfold scan_entry. mrun.
        destruct rom_ as [r|]; [ | destruct (GBAIsROM vf) ];
          (destruct patch_ as [p|]; [ | destruct (loadPatch vf) ]);
          mrun; eexists;
          first [ exists [EvClose (file_handle vf)];
                  split; [ reflexivity | ]; split; [ reflexivity | ];
                  split; [ intro H; cbn in H; first [ discriminate H | reflexivity ] | ];
                  split; [ intro H; cbn in H; first [ discriminate H | reflexivity ] | ];
                  intro h; destruct h as [x|x]; cbn;
                  try destruct (Nat.eqb x (vf_id vf)); reflexivity
                | exists [];
                  split; [ reflexivity | ]; split; [ reflexivity | ];
                  split; [ intro H; cbn in H; first [ discriminate H | reflexivity ] | ];
                  split; [ intro H; cbn in H; first [ discriminate H | reflexivity ] | ];
                  intro h; destruct h as [x|x]; cbn;
                  try destruct (Nat.eqb x (vf_id vf)); reflexivity ].
      - eexists. exists []. cbn [scan_entry ret].
        split; [ reflexivity | ]. split; [ reflexivity | ].
        split; [ reflexivity | ]. split; [ reflexivity | ].
        intro h. cbn. destruct rom_, patch_; reflexivity. }
    destruct Hstep as (w1 & evs1 & Hrun1 & Htr1 & Hr1 & Hp1 & Hn1).
    destruct (IH w1) as (w' & evs & Hrun & Htr & Hr & Hp & Hn).
    exists w', (evs ++ evs1). cbn [scan_dir]. unfold bind. rewrite Hrun1.
    split; [ exact Hrun | ]. clear Hrun Hrun1.
    split; [ rewrite Htr, Htr1, app_assoc; reflexivity | ].
    assert (Hr1' : is_null (rom (ctx w1)) = false \/ is_null (rom (ctx w)) = true).
    { destruct (is_null (rom (ctx w))) eqn:E; [ now right | left ].
      rewrite (Hr1 eq_refl). exact E. }
    split.
    { intro H. rewrite <- (Hr1 H). apply Hr. rewrite (Hr1 H). exact H. }
    split.
    { intro H. rewrite <- (Hp1 H). apply Hp. rewrite (Hp1 H). exact H. }
    intro h. cbn [flat_map].
    rewrite occurrences_app, closes_app, Hn1, Hn.
    rewrite (kept_twice (rom (ctx w)) (rom (ctx w1)) (rom (ctx w')) Hr1 Hr).
    rewrite (kept_twice (patch (ctx w)) (patch (ctx w1)) (patch (ctx w')) Hp1 Hp).
    rewrite !occurrences_app. lia.
Qed.

(** *** A directory as the game *)

(** In directory mode [GBAMapArgumentsToContext] makes [stateDir] the
    very pointer of [gameDir] and leaves the ROM handle alone.
    [GBAThreadJoin] on a context in which the two are the same closes that
    directory once, not twice, and clears both fields. *)
Theorem dirmode_directory_closed_once (args : GBAArguments) (cfg : Setting)
    (w : World) (d : VDir) :
  arg_dirmode args = true ->
  VDirOpen (fs cfg) (arg_fname args) = Some d ->
  (exists w1,
     GBAMapArgumentsToContext args cfg w = Ok tt w1 /\
     gameDir (ctx w1) = Some d /\
     stateDir (ctx w1) = Some d /\
     rom (ctx w1) = rom (ctx w) /\
     trace w1 = trace w) /\
  (forall cfg2 w2,
     gameDir (others cfg2 (clock w2) (ctx w2)) = Some d ->
     stateDir (others cfg2 (clock w2) (ctx w2)) = Some d ->
     exists w3 evs,
       GBAThreadJoin cfg2 w2 = Ok tt w3 /\
       trace w3 = evs ++ trace w2 /\
       closes (dir_handle d) evs = 1%nat /\
       gameDir (ctx w3) = None /\
       stateDir (ctx w3) = None).
Proof.
  intros Hmode Hopen. split.
  - destruct cfg as [t n oth tout fsys]. destruct args as [f dm p ch mv].
    cbn [arg_dirmode arg_fname fs] in *. subst dm.
    open_world w. unfold GBAMapArgumentsToContext. mrun. rewrite Hopen.
    eexists. split; [ reflexivity | repeat split ].
  - intros cfg2 w2 Hg Hs.
    destruct cfg2 as [t n oth tout fsys]. destruct w2 as [c l tr k].
    cbn [others clock ctx] in Hg, Hs.
    unfold GBAThreadJoin. mrun.
    destruct (oth k c) as [st saved depth sy core spawned rom_ bios_ save_ patch_ cheats_
                             gdir sdir fname_ movie_].
    cbn [gameDir stateDir] in Hg, Hs. subst gdir sdir.
    destruct rom_, save_, bios_, patch_; mrun;
      unfold VDir_ptr_eqb; rewrite Nat.eqb_refl; mrun;
      (eexists; eexists; split; [ reflexivity | ]; split; [ solve_suffix | ];
       cbn; rewrite Nat.eqb_refl; repeat split).
Qed.

(** A session on a directory of one game. *)
Lemma dirmode_directory_closed_once_witness :
  exists w1,
    GBAMapArgumentsToContext
      (mkGBAArguments (Some Names.game) true None None None)
      (mkSetting Host 1 (fun _ c => c) (fun _ => false)
         (mkFileSystem (fun _ => None)
            (fun _ => Some (mkVDir 7 [Some (mkVFile 1 true false)]))
            false (fun _ => None) false (fun _ => None) (fun _ _ => None)))
      (fresh_world blank) = Ok tt w1 /\
    stateDir (ctx w1) = gameDir (ctx w1).
Proof.
  destruct (dirmode_directory_closed_once
              (mkGBAArguments (Some Names.game) true None None None)
              (mkSetting Host 1 (fun _ c => c) (fun _ => false)
                 (mkFileSystem (fun _ => None)
                    (fun _ => Some (mkVDir 7 [Some (mkVFile 1 true false)]))
                    false (fun _ => None) false (fun _ => None) (fun _ _ => None)))
              (fresh_world blank)
              (mkVDir 7 [Some (mkVFile 1 true false)])
              eq_refl eq_refl)
    as ((w1 & Hrun & Hg & Hs & _) & _).
  exists w1. split; [ exact Hrun | ]. rewrite Hg, Hs. reflexivity.
Defined.
